(** * Comparison plots over pipeline tasks

    A shallow embedding of [genesis/utils/pipeline/viz/comparison.py]: the
    luigi task [ComparisonPlot], its helper [_get_task_class], the
    rendering routine [_scales_dist_2d] and the axis set-up
    [_apply_plot_parameters_to_axis].

    Python values are modelled as data ([PyVal]), dictionaries as
    insertion-ordered association lists ([PyDict]), exceptions as a sum
    type, the file system as a finite map from paths to files, and the
    calls into matplotlib / seaborn / xarray as a log of draw calls that
    makes up the rendered figure. *)

From Stdlib Require Import ZArith Lia Ascii.
From Stdlib Require Import Floats.SpecFloat.
From stdpp Require Import gmap strings list fin_maps pretty.

Local Open Scope Z_scope.

(** ** Python strings: [rfind] and slicing *)

Module PyStr.

(** [s.rfind(sub)]: the highest index at which [sub] occurs in [s],
    and [-1] when it does not occur. *)
Fixpoint rfind (sub s : string) : Z :=
  match s with
  | EmptyString => if String.eqb sub EmptyString then 0 else -1
  | String _ s' =>
      let r := rfind sub s' in
      if 0 <=? r then r + 1
      else if String.prefix sub s then 0 else -1
  end.

Fixpoint take (n : nat) (s : string) : string :=
  match n, s with
  | S n', String a s' => String a (take n' s')
  | _, _ => EmptyString
  end.

Fixpoint drop (n : nat) (s : string) : string :=
  match n, s with
  | S n', String _ s' => drop n' s'
  | _, _ => s
  end.

(** A slice bound as Python normalises it: a negative bound counts from
    the end, and the result is clamped to [0 .. len]. *)
Definition norm_index (len : nat) (k : Z) : nat :=
  let k' := if k <? 0 then k + Z.of_nat len else k in
  Z.to_nat (Z.min (Z.of_nat len) (Z.max 0 k')).

(** [s[:k]] *)
Definition slice_to (k : Z) (s : string) : string :=
  take (norm_index (String.length s) k) s.

(** [s[k:]] *)
Definition slice_from (k : Z) (s : string) : string :=
  drop (norm_index (String.length s) k) s.

(** [sub in s] for two strings. *)
Fixpoint contains (sub s : string) : bool :=
  String.prefix sub s
  || match s with
     | EmptyString => false
     | String _ s' => contains sub s'
     end.

(** The string without its last character (the empty string stays). *)
Fixpoint drop_last (s : string) : string :=
  match s with
  | EmptyString => EmptyString
  | String a EmptyString => EmptyString
  | String a s' => String a (drop_last s')
  end.

(** No character of [s] is [c]. *)
Definition free_of (c : Ascii.ascii) (s : string) : Prop :=
  c ∉ String.list_ascii_of_string s.

End PyStr.

(** [k = base_class.rfind("."); base_class[:k], base_class[k + 1:]] *)
Definition split_base_class (base_class : string) : string * string :=
  let k := PyStr.rfind "." base_class in
  (PyStr.slice_to k base_class, PyStr.slice_from (k + 1) base_class).

(** ** Python values

    The values a luigi [DictParameter] can hold: what JSON can express,
    frozen by luigi (a list becomes a tuple, a dict a frozen ordered
    dict with string keys).  Characters are the 8-bit characters of
    [string]. *)

#[warnings="-register-all"] Inductive PyVal : Type :=
| VNone
| VBool (b : bool)
| VInt (z : Z)
| VFloat (f : spec_float)
| VStr (s : string)
| VList (l : list PyVal)
| VDict (d : list (string * PyVal)).

(** [bool(v)]: the truth value Python's [if v:] tests. *)
Definition truthy (v : PyVal) : bool :=
  match v with
  | VNone => false
  | VBool b => b
  | VInt z => negb (z =? 0)
  | VFloat (S754_zero _) => false
  | VFloat _ => true
  | VStr EmptyString => false
  | VStr _ => true
  | VList [] => false
  | VList _ => true
  | VDict [] => false
  | VDict _ => true
  end.

(** ** Python dictionaries with string keys

    An association list in insertion order without repeated keys, which
    is what iterating a [dict] shows. *)

Module PyDict.
Section Dict.
Context {V : Type}.

Definition t : Type := list (string * V).

Definition empty : t := [].

(** [d.get(k)] as an option *)
Fixpoint get (k : string) (d : t) : option V :=
  match d with
  | [] => None
  | (k', v) :: d' => if String.eqb k k' then Some v else get k d'
  end.

(** [d.get(k, default)] *)
Definition get_or (k : string) (d : t) (default : V) : V :=
  match get k d with
  | Some v => v
  | None => default
  end.

(** [k in d] *)
Definition contains (k : string) (d : t) : bool :=
  match get k d with
  | Some _ => true
  | None => false
  end.

(** [d[k] = v]: an existing key keeps its place, a new one goes last *)
Fixpoint set (k : string) (v : V) (d : t) : t :=
  match d with
  | [] => [(k, v)]
  | (k', v') :: d' =>
      if String.eqb k k' then (k', v) :: d' else (k', v') :: set k v d'
  end.

(** [d.update(e)] for a dictionary [e] *)
Definition update (d e : t) : t :=
  fold_left (λ acc kv, set kv.1 kv.2 acc) e d.

(** [d.pop(k, None)]: the dictionary without the key [k] *)
Fixpoint remove (k : string) (d : t) : t :=
  match d with
  | [] => []
  | (k', v) :: d' =>
      if String.eqb k k' then remove k d' else (k', v) :: remove k d'
  end.

(** [d.items()] *)
Definition items (d : t) : list (string * V) := d.

(** [dict(d)]: a copy *)
Definition copy (d : t) : t := d.

(** The dictionary built by inserting the pairs in turn. *)
Definition of_pairs (l : list (string * V)) : t := update empty l.

(** The mapping a dictionary denotes, forgetting the order. *)
Definition to_map (d : t) : gmap string V := list_to_map d.

(** No key occurs twice. *)
Definition wf (d : t) : Prop := NoDup d.*1.
End Dict.
Arguments t : clear implicits.
End PyDict.

Abbreviation Dict := (PyDict.t PyVal).

(** ** Exceptions and results *)

(** The exceptions the module's code paths raise; [C] is the type of
    task classes, which [NotImplementedError] carries. *)
Inductive PyErr (C : Type) : Type :=
| ModuleNotFoundError (module_name : string)
| AttributeError (attr : string)
| NotImplementedError (cls : C)
| ParameterException (msg : string)
| TypeError
| ValueError
| IndexError
| KeyError (key : string)
| OSError (path : string).

Arguments ModuleNotFoundError {C}.
Arguments AttributeError {C}.
Arguments NotImplementedError {C}.
Arguments ParameterException {C}.
Arguments TypeError {C}.
Arguments ValueError {C}.
Arguments IndexError {C}.
Arguments KeyError {C}.
Arguments OSError {C}.

(** A computation that returns or raises. *)
Definition Res (E A : Type) : Type := E + A.

#[global] Instance res_ret {E} : MRet (Res E) := λ A a, inr a.
#[global] Instance res_bind {E} : MBind (Res E) :=
  λ A B f m, match m with inl e => inl e | inr a => f a end.
#[global] Instance res_throw {E} : MThrow E (Res E) := λ A e, inl e.

(** What an attempt to write a file ends in: the file is written; the
    write is refused and nothing is created; or it fails after the file
    was created, which leaves a truncated file. *)
Inductive WriteOutcome : Type := Written | Refused | Truncated.

(** ** The runtime the module calls into

    What the source imports and does not define: the task classes under
    [genesis.utils.pipeline.data], luigi's task construction and targets,
    xarray's arrays, string formatting and [textwrap], the matplotlib
    version, and the disk. *)
Class Runtime : Type := {
  TaskClass : Type;
  TaskClass_eq_dec :: EqDecision TaskClass;
  (** the class imported on line 19 *)
  ObjectTwoScalesComposition : TaskClass;
  (** [importlib.import_module(name)], and [getattr] on the module *)
  import_module : string → option (string → option TaskClass);
  Task : Type;
  (** calling the class with the parameters as keyword arguments *)
  construct : TaskClass → Dict → Res (PyErr TaskClass) Task;
  (** the location of [t.output()] *)
  task_output : Task → string;
  DataArray : Type;
  (** [ds["task_name"] = task_name] *)
  set_task_name : string → DataArray → DataArray;
  (** the length of [cs.collections] for the contour set of an array *)
  n_collections : DataArray → nat;
  (** [f"{v}"] *)
  py_str : PyVal → string;
  (** [textwrap.wrap(s, width=w)] *)
  textwrap_wrap : string → nat → list string;
  (** [hasattr(ax, "axline")], true from matplotlib 3.3.0 *)
  has_axline : bool;
  (** what writing to a path ends in *)
  write_outcome : string → WriteOutcome;
}.

Abbreviation Err := (PyErr TaskClass).

(** ** Python operations on values *)

Section PyOps.
Context {C : Type}.

Abbreviation R := (Res (PyErr C)).

(** [key in v] for a string [key] *)
Definition py_in (key : string) (v : PyVal) : R bool :=
  match v with
  | VDict d => mret (PyDict.contains key d)
  | VList l =>
      mret (existsb (λ x, match x with
                          | VStr s => String.eqb key s
                          | _ => false
                          end) l)
  | VStr s => mret (PyStr.contains key s)
  | VNone | VBool _ | VInt _ | VFloat _ => mthrow TypeError
  end.

(** [v[key]] for a string [key] *)
Definition py_getitem_str (key : string) (v : PyVal) : R PyVal :=
  match v with
  | VDict d =>
      match PyDict.get key d with
      | Some x => mret x
      | None => mthrow (KeyError key)
      end
  | _ => mthrow TypeError
  end.

(** [v[i]] for a natural number [i] *)
Definition py_getitem_nat (i : nat) (v : PyVal) : R PyVal :=
  match v with
  | VList l =>
      match l !! i with
      | Some x => mret x
      | None => mthrow IndexError
      end
  | VStr s =>
      match String.get i s with
      | Some c => mret (VStr (String c EmptyString))
      | None => mthrow IndexError
      end
  | VDict _ => mthrow (KeyError (pretty (Z.of_nat i)))
  | VNone | VBool _ | VInt _ | VFloat _ => mthrow TypeError
  end.

(** One element of the sequence [dict(...)] and [update(...)] read
    pairs from: it must itself be a sequence of length two. *)
Definition py_pair (item : PyVal) : R (PyVal * PyVal) :=
  match item with
  | VList [a; b] => mret (a, b)
  | VStr (String a (String b EmptyString)) =>
      mret (VStr (String a EmptyString), VStr (String b EmptyString))
  | VDict [(a, _); (b, _)] => mret (VStr a, VStr b)
  | VList _ | VStr _ | VDict _ => mthrow ValueError
  | VNone | VBool _ | VInt _ | VFloat _ => mthrow TypeError
  end.

(** The key-value pairs [dict(v)] and [d.update(v)] take from [v]. *)
Definition py_pairs (v : PyVal) : R (list (PyVal * PyVal)) :=
  match v with
  | VDict d => mret (map (λ kv, (VStr kv.1, kv.2)) d)
  | VList l => mapM py_pair l
  | VStr EmptyString => mret []
  | VStr _ => mthrow ValueError
  | VNone | VBool _ | VInt _ | VFloat _ => mthrow TypeError
  end.

(** The pairs with their keys as strings, when all keys are strings. *)
Definition str_keyed (ps : list (PyVal * PyVal)) : option (list (string * PyVal)) :=
  mapM (λ kv, match kv.1 with
              | VStr k => Some (k, kv.2)
              | _ => None
              end) ps.

(** The keyword arguments a call [f( **v )] passes: [v] must be a
    mapping, and ours have string keys. *)
Definition py_kwargs (v : PyVal) : R Dict :=
  match v with
  | VDict d => mret d
  | _ => mthrow TypeError
  end.
End PyOps.

(** ** Figures

    The module draws through matplotlib, seaborn and xarray.  A figure is
    the sequence of calls made on it, in the order the code makes them. *)

Inductive Axes : Type := AxJoint | AxMargX | AxMargY.

Section Rendering.
Context `{RT : Runtime}.

Inductive LibCall : Type :=
| Subplots (fig_params : Dict)
| NewPlotGrid (height : option PyVal)
| FpReference (kwargs : Dict)
| Warn (msg : string)
| Axline
| Contour (cmap : string) (da : DataArray)
| SetLabel (label : string)
| PlotMarginal (ax : Axes) (da : DataArray)
| SetTitle (ax : Axes) (title : PyVal)
| SetXlabel (ax : Axes) (label : string)
| SetYlabel (ax : Axes) (label : string)
| SetXticklabels (ax : Axes)
| SetYticklabels (ax : Axes)
| Despine (ax : Axes)
| SetXlim (ax : Axes) (lo : Z) (hi : PyVal)
| SetYlim (ax : Axes) (lo : Z) (hi : PyVal)
| Suptitle (title : PyVal)
| Legend (loc : PyVal)
| TightLayout.

Definition Figure : Type := list LibCall.

(** Drawing code: it extends the figure or raises. *)
Definition Draw (A : Type) : Type := Figure → Res Err (A * Figure).

#[global] Instance draw_ret : MRet Draw := λ A a fig, inr (a, fig).
#[global] Instance draw_bind : MBind Draw :=
  λ A B f m fig,
    match m fig with
    | inl e => inl e
    | inr (a, fig') => f a fig'
    end.
#[global] Instance draw_throw : MThrow Err Draw := λ A e fig, inl e.

(** One library call on the figure. *)
Definition call (c : LibCall) : Draw unit := λ fig, inr (tt, fig ++ [c]).

(** A Python expression evaluated inside drawing code. *)
Definition eval {A} (r : Res Err A) : Draw A :=
  λ fig, match r with inl e => inl e | inr a => inr (a, fig) end.

(** [if b: body] *)
Definition when (b : bool) (body : Draw unit) : Draw unit :=
  if b then body else mret tt.

(** [for x in l: body(x)] *)
Fixpoint for_each {A} (l : list A) (body : A → Draw unit) : Draw unit :=
  match l with
  | [] => mret tt
  | x :: l' => body x ;; for_each l' body
  end.

(** The figure drawing code produces, started on a new figure. *)
Definition drawn (m : Draw unit) : Res Err Figure :=
  match m [] with
  | inl e => inl e
  | inr (_, fig) => inr fig
  end.

(** The contour calls of a figure: colormap and array, in order. *)
Definition contours (fig : Figure) : list (string * DataArray) :=
  omap (λ c, match c with
             | Contour cmap da => Some (cmap, da)
             | _ => None
             end) fig.

(** The labels set on the contour lines of a figure, in order. *)
Definition labels (fig : Figure) : list string :=
  omap (λ c, match c with
             | SetLabel l => Some l
             | _ => None
             end) fig.

Definition newline : string := String (Ascii.ascii_of_nat 10) EmptyString.

Definition _generate_title_from_global_parameters
    (global_parameters : Dict) : string :=
  let s := String.concat ", "
             (map (λ kv, kv.1 +:+ ": " +:+ py_str kv.2)
                  (PyDict.items global_parameters)) in
  String.concat newline (textwrap_wrap s 100).

Definition _apply_plot_parameters_to_axis (ax : Axes)
    (plot_parameters global_parameters : Dict) (use_suptitle : bool)
    : Draw unit :=
  when (truthy (PyDict.get_or "despine" plot_parameters VNone))
    (call (Despine ax)) ;;
  when (truthy (PyDict.get_or "x_max" plot_parameters VNone))
    (x_max ← eval (py_getitem_str "x_max" (VDict plot_parameters));
     call (SetXlim ax 0 x_max)) ;;
  when (truthy (PyDict.get_or "y_max" plot_parameters VNone))
    (y_max ← eval (py_getitem_str "y_max" (VDict plot_parameters));
     call (SetYlim ax 0 y_max)) ;;
  let title :=
    PyDict.get_or "title" plot_parameters
      (VStr (_generate_title_from_global_parameters global_parameters)) in
  if use_suptitle then
    call (Suptitle title) ;;
    call (SetTitle ax (VStr ""))
  else
    call (SetTitle ax title).

(** [dict(annotations[key])] under [try ... except: kwargs = {}]; a
    mapping with a key that is not a string is built without error and
    makes the call that takes it as keyword arguments raise. *)
Definition reference_kwargs (annotations : PyVal) : Res Err Dict :=
  match (py_getitem_str "filamentarity_planarity_reference" annotations
           ≫= py_pairs : Res Err _) with
  | inl _ => mret PyDict.empty
  | inr ps =>
      match str_keyed ps with
      | Some kvs => mret (PyDict.of_pairs kvs)
      | None => mthrow TypeError
      end
  end.

(** [fp_reference(ax=ax_joint, shape="spheroid", color="black", **kwargs)]:
    a keyword given twice is a [TypeError]. *)
Definition fp_reference (kwargs : Dict) : Draw unit :=
  if PyDict.contains "ax" kwargs || PyDict.contains "shape" kwargs
     || PyDict.contains "color" kwargs
  then mthrow TypeError
  else call (FpReference kwargs).

(** [cs.collections[2]] on the contour set drawn for [da] *)
Definition collections_2 (da : DataArray) : Res Err unit :=
  if (n_collections da <=? 2)%nat then mthrow IndexError else mret tt.

Definition cmaps : list string := ["Blues"; "Reds"; "Greens"; "Oranges"].

Definition _scales_dist_2d (datasets : PyDict.t DataArray)
    (plot_parameters global_parameters : Dict) : Res Err Figure :=
  drawn (
    let add_marginal_distributions :=
      truthy (PyDict.get_or "add_marginal_distributions" plot_parameters
                (VBool false)) in
    let fig_params := PyDict.get_or "fig_params" plot_parameters (VDict []) in
    (if add_marginal_distributions then
       has_figsize ← eval (py_in "figsize" fig_params);
       height ← (if has_figsize : bool then
                   figsize ← eval (py_getitem_str "figsize" fig_params);
                   h ← eval (py_getitem_nat 1 figsize);
                   mret (Some h)
                 else mret None);
       call (NewPlotGrid height)
     else
       kw ← eval (py_kwargs fig_params);
       call (Subplots kw)) ;;
    let annotations := PyDict.get_or "annotations" plot_parameters (VList []) in
    has_reference ←
      eval (py_in "filamentarity_planarity_reference" annotations);
    when has_reference
      (kwargs ← eval (reference_kwargs annotations);
       fp_reference kwargs) ;;
    has_unit_line ← eval (py_in "unit_line" annotations);
    when has_unit_line
      (if negb has_axline then
         call (Warn "Upgrade to matplotlib >= 3.3.0 to draw unit line")
       else call Axline) ;;
    for_each (zip cmaps (PyDict.items datasets))
      (λ '(cmap, (task_name, da)),
         call (Contour cmap da) ;;
         eval (collections_2 da) ;;
         call (SetLabel task_name) ;;
         when add_marginal_distributions
           (call (PlotMarginal AxMargX da) ;;
            call (PlotMarginal AxMargY da))) ;;
    when add_marginal_distributions
      (let remove_axes_annotations ax_ :=
         call (SetTitle ax_ (VStr "")) ;;
         call (SetXlabel ax_ "") ;;
         call (SetYlabel ax_ "") in
       remove_axes_annotations AxMargX ;;
       remove_axes_annotations AxMargY ;;
       call (SetXticklabels AxMargY) ;;
       call (SetYticklabels AxMargX)) ;;
    _apply_plot_parameters_to_axis AxJoint plot_parameters global_parameters
      add_marginal_distributions ;;
    call (Legend (PyDict.get_or "legend_loc" plot_parameters (VStr "best"))) ;;
    call TightLayout).

End Rendering.

(** ** The task [ComparisonPlot] *)

Section Task.
Context `{RT : Runtime}.

(** A file on disk: the array an upstream task stored, an image a
    figure was saved to, or what a failed write left behind. *)
Inductive File : Type :=
| DataFile (da : DataArray)
| ImageFile (fig : Figure)
| TruncatedFile.

(** The file system: paths to files. *)
Abbreviation World := (gmap string File).

(** Code of a task: it reads and writes the file system, and returns
    or raises. *)
Definition M (A : Type) : Type := World → Res Err A * World.

#[global] Instance M_ret : MRet M := λ A a w, (inr a, w).
#[global] Instance M_bind : MBind M :=
  λ A B f m w,
    match m w with
    | (inl e, w') => (inl e, w')
    | (inr a, w') => f a w'
    end.
#[global] Instance M_throw : MThrow Err M := λ A e w, (inl e, w).

(** A Python expression evaluated inside task code. *)
Definition pure {A} (r : Res Err A) : M A := λ w, (r, w).

(** Task code that neither reads nor writes the file system: it gives
    one result, whatever the files, and leaves them as they are. *)
Definition stateless {A} (m : M A) : Prop := ∃ r, ∀ w, m w = (r, w).

(** [for x in l: acc = body(x, acc)] *)
Fixpoint for_items {A S} (l : list A) (body : A → S → M S) (acc : S) : M S :=
  match l with
  | [] => mret acc
  | x :: l' => acc' ← body x acc; for_items l' body acc'
  end.

(** [luigi.LocalTarget(fn)] *)
Record LocalTarget : Type := { fn : string }.

(** [target.exists()] *)
Definition target_exists (path : string) (w : World) : bool :=
  bool_decide (is_Some (w !! path)).

(** [target.open()] on the output of an upstream task *)
Definition open_target (path : string) : M DataArray :=
  λ w, match w !! path with
       | Some (DataFile da) => (inr da, w)
       | _ => (inl (OSError path), w)
       end.

(** [plt.savefig(path, ...)]: it writes to [path] itself. *)
Definition savefig (path : string) (fig : Figure) : M unit :=
  λ w, match write_outcome path with
       | Written => (inr tt, <[path := ImageFile fig]> w)
       | Refused => (inl (OSError path), w)
       | Truncated => (inl (OSError path), <[path := TruncatedFile]> w)
       end.

Record ComparisonPlot : Type := {
  base_class : string;
  parameter_sets : Dict;
  global_parameters : Dict;
  plot_parameters : Dict;
  name : string;
}.

Definition _get_task_class (self : ComparisonPlot) : M TaskClass :=
  let '(class_module_name, class_name) := split_base_class (base_class self) in
  match import_module ("genesis.utils.pipeline.data." +:+ class_module_name) with
  | None =>
      mthrow (ModuleNotFoundError
                ("genesis.utils.pipeline.data." +:+ class_module_name))
  | Some class_module =>
      match class_module class_name with
      | None => mthrow (AttributeError class_name)
      | Some TaskClass => mret TaskClass
      end
  end.

(** [task_parameters = dict(global_parameters);
     task_parameters.update(parameter_set)] *)
Definition merge_parameters (global_parameters : Dict) (parameter_set : PyVal)
    : Res Err Dict :=
  let task_parameters := PyDict.copy global_parameters in
  ps ← py_pairs parameter_set;
  match str_keyed ps with
  | Some kvs => mret (PyDict.update task_parameters kvs)
  | None => mthrow TypeError
  end.

Definition requires (self : ComparisonPlot) : M (PyDict.t Task) :=
  TaskClass ← _get_task_class self;
  for_items (PyDict.items (parameter_sets self))
    (λ '(task_name, parameter_set) tasks,
       task_parameters ←
         pure (merge_parameters (global_parameters self) parameter_set);
       t ← pure (construct TaskClass task_parameters);
       mret (PyDict.set task_name t tasks))
    PyDict.empty.

Definition output (self : ComparisonPlot) : LocalTarget :=
  {| fn := name self +:+ ".png" |}.

(** [self.input()]: luigi maps [requires()] to the tasks' outputs. *)
Definition input (self : ComparisonPlot) : M (PyDict.t string) :=
  tasks ← requires self;
  mret (map (λ kv, (kv.1, task_output kv.2)) (PyDict.items tasks)).

(** The renderers [run] chooses between. *)
Definition RenderFunction : Type :=
  PyDict.t DataArray → Dict → Dict → Res Err Figure.

(** The branch on the task class at the top of [run]. *)
Definition select_renderer (TaskClass_ : TaskClass) : Res Err RenderFunction :=
  if decide (TaskClass_ = ObjectTwoScalesComposition)
  then mret _scales_dist_2d
  else mthrow (NotImplementedError TaskClass_).

Definition run (self : ComparisonPlot) : M unit :=
  TaskClass ← _get_task_class self;
  plot_function ← pure (select_renderer TaskClass);
  inputs ← input self;
  datasets ←
    for_items (PyDict.items inputs)
      (λ '(task_name, task_input) datasets,
         ds ← open_target task_input;
         let ds := set_task_name task_name ds in
         mret (PyDict.set task_name ds datasets))
      PyDict.empty;
  fig ← pure (plot_function datasets (plot_parameters self)
                (global_parameters self));
  savefig (fn (output self)) fig.

End Task.

Abbreviation World := (gmap string File).

(** ** The scheduler *)

Section Scheduler.
Context `{RT : Runtime}.

(** Modelled from the spec: a Task Node as the Scheduler/Runner sees
    it.  The source holds no scheduler (it hands its tasks to luigi);
    the node's contract is the one of the spec's Task Node:
    [output()], [dependencies()] and [run(inputs)]. *)
#[warnings="-register-all"] Inductive Node : Type :=
  MkNode (node_output : string)
         (node_dependencies : M (list (string * Node)))
         (node_run : list (string * File) → M unit).

(** Modelled from the spec: the errors of the spec's taxonomy the
    Scheduler/Runner (absent from the source) reports. *)
Inductive SchedErr : Type :=
| TaskError (e : Err)
| DependencyFailedError (label : string) (cause : SchedErr)
| NotFoundError (location : string).

(** Modelled from the spec: the state the Scheduler/Runner (absent from
    the source) works on, the artifact store together with the spy the
    spec's cache test puts on [run]: the targets whose [run] was
    invoked, in order. *)
Record Sched : Type := { disk : World; run_log : list string }.

(** Modelled from the spec: step 3 of [materialize], absent from the
    source: open each dependency artifact and tag it with its label;
    [open()] fails with [NotFoundError] on an absent target. *)
Fixpoint open_all (deps : list (string * Node)) (w : World)
    : Res SchedErr (list (string * File)) :=
  match deps with
  | [] => inr []
  | (label, MkNode out _ _) :: deps' =>
      match w !! out with
      | None => inl (NotFoundError out)
      | Some f =>
          match open_all deps' w with
          | inl e => inl e
          | inr opened => inr ((label, f) :: opened)
          end
      end
  end.

(** Modelled from the spec: [materialize(root_node)] of the
    Scheduler/Runner, which the source leaves to luigi.  Step 1: a
    present output is returned at once.  Step 2: otherwise each
    dependency is materialized in turn, a failure aborting the call.
    Steps 3 to 5: the dependency artifacts are opened and tagged,
    [run] is invoked, and the output is returned. *)
Fixpoint materialize (root_node : Node) (st : Sched)
    : Res SchedErr string * Sched :=
  match root_node with
  | MkNode out dependencies run_ =>
      if target_exists out (disk st) then (inr out, st)
      else
        match dependencies (disk st) with
        | (inl e, w) => (inl (TaskError e), {| disk := w; run_log := run_log st |})
        | (inr deps, w) =>
            let fix materialize_all (l : list (string * Node)) (st : Sched)
                : Res SchedErr unit * Sched :=
              match l with
              | [] => (inr tt, st)
              | (label, dep_node) :: l' =>
                  match materialize dep_node st with
                  | (inl e, st') => (inl (DependencyFailedError label e), st')
                  | (inr _, st') => materialize_all l' st'
                  end
              end in
            match materialize_all deps {| disk := w; run_log := run_log st |} with
            | (inl e, st') => (inl e, st')
            | (inr _, st') =>
                match open_all deps (disk st') with
                | inl e => (inl e, st')
                | inr opened_inputs =>
                    let log := run_log st' ++ [out] in
                    match run_ opened_inputs (disk st') with
                    | (inl e, w') =>
                        (inl (TaskError e), {| disk := w'; run_log := log |})
                    | (inr _, w') =>
                        (inr out, {| disk := w'; run_log := log |})
                    end
                end
            end
        end
  end.

(** Modelled from the spec: a [ComparisonPlot] as a Task Node of the
    Scheduler/Runner (absent from the source); [upstream] gives the
    nodes of the tasks it requires.  The methods are the source's:
    [output], [requires], and [run], which opens its inputs itself. *)
Definition comparison_node (upstream : Task → Node) (self : ComparisonPlot)
    : Node :=
  MkNode (fn (output self))
         (tasks ← requires self;
          mret (map (λ kv, (kv.1, upstream kv.2)) (PyDict.items tasks)))
         (λ _, run self).

End Scheduler.

(** ** A concrete runtime

    A small instance of [Runtime] on which the definitions above are
    evaluated: two task classes in the module [objects], tasks that store
    their class and parameters, and a disk on which paths under
    [readonly/] refuse a write and paths under [full/] truncate it. *)

Module Scenario.

Inductive DemoClass : Type := TwoScales | OneScale.

#[global] Instance DemoClass_eq_dec : EqDecision DemoClass.
Proof. solve_decision. Defined.

Definition objects_module (attr : string) : option DemoClass :=
  if String.eqb attr "ObjectTwoScalesComposition" then Some TwoScales
  else if String.eqb attr "ObjectScales" then Some OneScale
  else None.

Definition demo_import (module_name : string)
    : option (string → option DemoClass) :=
  if String.eqb module_name "genesis.utils.pipeline.data.objects"
  then Some objects_module
  else None.

Record DemoTask : Type := { demo_class : DemoClass; demo_params : Dict }.

Definition demo_str (v : PyVal) : string :=
  match v with
  | VInt z => pretty z
  | VStr s => s
  | _ => "?"
  end.

Definition demo_output (t : DemoTask) : string :=
  String.concat "_"
    (map (λ kv, kv.1 +:+ "=" +:+ demo_str kv.2) (demo_params t)) +:+ ".nc".

(** An array: its content and the [task_name] stored on it. *)
Record DemoArray : Type := { content : string; task_name : option string }.

Definition demo_write (path : string) : WriteOutcome :=
  if String.prefix "readonly/" path then Refused
  else if String.prefix "full/" path then Truncated
  else Written.

Definition demo : Runtime := {|
  TaskClass := DemoClass;
  ObjectTwoScalesComposition := TwoScales;
  import_module := demo_import;
  Task := DemoTask;
  construct := λ c d, inr {| demo_class := c; demo_params := d |};
  task_output := demo_output;
  DataArray := DemoArray;
  set_task_name := λ s da, {| content := content da; task_name := Some s |};
  n_collections := λ _, 3%nat;
  py_str := demo_str;
  textwrap_wrap := λ s _, [s];
  has_axline := true;
  write_outcome := demo_write;
|}.

#[local] Existing Instance demo.

Definition array (s : string) : DemoArray :=
  {| content := s; task_name := None |}.

(** The comparison of the spec's end-to-end scenario. *)
Definition cmp1 : ComparisonPlot := {|
  base_class := "objects.ObjectTwoScalesComposition";
  parameter_sets :=
    [("v1", VDict [("alpha", VInt 1)]); ("v2", VDict [("alpha", VInt 2)])];
  global_parameters := [("bins", VInt 10)];
  plot_parameters := [("title", VStr "two variants")];
  name := "cmp1";
|}.

(** The same comparison over a class without a renderer. *)
Definition cmp_other : ComparisonPlot := {|
  base_class := "objects.ObjectScales";
  parameter_sets := parameter_sets cmp1;
  global_parameters := global_parameters cmp1;
  plot_parameters := plot_parameters cmp1;
  name := "cmp1";
|}.


(** The comparison with [v2] removed and other global parameters. *)
Definition cmp_changed : ComparisonPlot := {|
  base_class := base_class cmp1;
  parameter_sets := [("v1", VDict [("alpha", VInt 1)])];
  global_parameters := [("bins", VInt 20)];
  plot_parameters := plot_parameters cmp1;
  name := "cmp1";
|}.

(** Both upstream artifacts are present. *)
Definition inputs_ready : World :=
  {[ "bins=10_alpha=1.nc" := DataFile (array "a1");
     "bins=10_alpha=2.nc" := DataFile (array "a2") ]}.

(** As [inputs_ready], with an earlier [cmp1.png] on disk. *)
Definition with_old_plot : World :=
  <["cmp1.png" := ImageFile []]> inputs_ready.

(** An upstream task as a node without dependencies whose work stores
    an array under the task's output. *)
Definition demo_upstream (t : DemoTask) : Node :=
  MkNode (demo_output t) (mret [])
         (λ _ w, (inr tt, <[demo_output t := DataFile (array "new")]> w)).

Definition six_datasets : PyDict.t DemoArray :=
  [("a", array "1"); ("b", array "2"); ("c", array "3");
   ("d", array "4"); ("e", array "5"); ("f", array "6")].

(** The comparison under another name and with other plot parameters. *)
Definition cmp_restyled : ComparisonPlot := {|
  base_class := base_class cmp1;
  parameter_sets := parameter_sets cmp1;
  global_parameters := global_parameters cmp1;
  plot_parameters := [("x_max", VInt 4); ("despine", VBool true)];
  name := "cmp2";
|}.

(** The comparison written to a disk that truncates the write. *)
Definition cmp_full : ComparisonPlot := {|
  base_class := base_class cmp1;
  parameter_sets := parameter_sets cmp1;
  global_parameters := global_parameters cmp1;
  plot_parameters := plot_parameters cmp1;
  name := "full/cmp1";
|}.

(** A scheduler state with the old plot on disk and no [run] logged. *)
Definition old_plot_state : Sched :=
  {| disk := with_old_plot; run_log := [] |}.

(** Plot parameters with a falsy [x_max] and a truthy [y_max]. *)
Definition limits : Dict := [("x_max", VInt 0); ("y_max", VInt 3)].

End Scenario.

(** ** Operations on projected cloud objects

    [genesis/objects/projected_2d/operations.py].  The dataset holds one
    entry per tracked cloud in each of its variables, all along the one
    dimension of clouds; a comparison with a scalar and [&] act entry by
    entry.  [T] is the type of times and [le] the comparison [<=] on
    them. *)

Module Operations.
Section Clouds.
Context {T O I : Type}.

Record CloudData : Type := {
  smcloudtmin : list T;
  smcloudtmax : list T;
  smcloudid : list I;
  var_object_type : list O;
  var_duration : list T;
}.

Context (le : T → T → bool).

(** Return clouds that are present at time [t0] *)
Definition present (ds : CloudData) (t0 : T) : list bool :=
  (* time of appearance *)
  let tmin := smcloudtmin ds in
  (* time of disappearance *)
  let tmax := smcloudtmax ds in
  let m := zip_with andb (map (λ t, le t t0) tmin) (map (λ t, le t0 t) tmax) in
  m.

Definition object_type (ds : CloudData) : list O := var_object_type ds.

Definition cloud_id (ds : CloudData) : list I := smcloudid ds.

Definition duration (ds : CloudData) : list T := var_duration ds.

End Clouds.
Arguments CloudData : clear implicits.
End Operations.

(** ** Further concrete cases *)

Module Cases.
Import Scenario.

(** The concrete runtime with axes that lack [axline] and with arrays
    named "flat" that give a single contour collection. *)
Definition demo_old : Runtime := {|
  TaskClass := DemoClass;
  ObjectTwoScalesComposition := TwoScales;
  import_module := demo_import;
  Task := DemoTask;
  construct := λ c d, inr {| demo_class := c; demo_params := d |};
  task_output := demo_output;
  DataArray := DemoArray;
  set_task_name := λ s da, {| content := content da; task_name := Some s |};
  n_collections := λ da, if String.eqb (content da) "flat" then 1%nat else 3%nat;
  py_str := demo_str;
  textwrap_wrap := λ s _, [s];
  has_axline := false;
  write_outcome := demo_write;
|}.

Definition two_datasets : PyDict.t DemoArray :=
  [("a", array "1"); ("b", array "2")].

Definition with_flat : PyDict.t DemoArray :=
  [("a", array "1"); ("b", array "flat")].

(** Plot parameters with marginal distributions, a figure size, both
    annotations and a legend location. *)
Definition pp_marginal : Dict :=
  [("add_marginal_distributions", VBool true);
   ("fig_params", VDict [("figsize", VList [VInt 4; VInt 5])]);
   ("annotations",
    VList [VStr "unit_line"; VStr "filamentarity_planarity_reference"]);
   ("legend_loc", VStr "upper left")].

(** Plot parameters that pass keyword arguments to the reference. *)
Definition pp_reference : Dict :=
  [("annotations",
    VDict [("filamentarity_planarity_reference",
            VDict [("linestyle", VStr ":")])]);
   ("fig_params", VDict [("figsize", VList [VInt 4; VInt 5])])].

(** [pp_reference] in another order and with a key that is not read. *)
Definition pp_reference' : Dict :=
  [("colour", VStr "red");
   ("fig_params", VDict [("figsize", VList [VInt 4; VInt 5])]);
   ("annotations",
    VDict [("filamentarity_planarity_reference",
            VDict [("linestyle", VStr ":")])])].

(** A comparison of one variant with short names. *)
Definition cmp_small : ComparisonPlot := {|
  base_class := "objects.ObjectTwoScalesComposition";
  parameter_sets := [("v", VDict [("a", VInt 1)])];
  global_parameters := [];
  plot_parameters := [];
  name := "c";
|}.

Definition small_task : DemoTask :=
  {| demo_class := TwoScales; demo_params := [("a", VInt 1)] |}.

(** The artifact of the one dependency of [cmp_small]. *)
Definition small_ready : gmap string (@File demo) :=
  {[ "a=1.nc" := DataFile (RT := demo) (array "x") ]}.

(** A comparison whose second parameter set is not a mapping. *)
Definition cmp_bad_set : ComparisonPlot := {|
  base_class := "objects.ObjectTwoScalesComposition";
  parameter_sets := [("v", VDict [("a", VInt 1)]); ("w", VNone);
                     ("x", VDict [])];
  global_parameters := [];
  plot_parameters := [];
  name := "c";
|}.

(** A comparison of two variants, the second without its artifact in
    [small_ready]. *)
Definition cmp_two : ComparisonPlot := {|
  base_class := "objects.ObjectTwoScalesComposition";
  parameter_sets := [("v", VDict [("a", VInt 1)]); ("w", VDict [("a", VInt 2)])];
  global_parameters := [];
  plot_parameters := [];
  name := "c";
|}.

(** Three clouds with their times of appearance and disappearance. *)
Definition clouds : Operations.CloudData Z unit Z := {|
  Operations.smcloudtmin := [0; 5; 7];
  Operations.smcloudtmax := [3; 9; 7];
  Operations.smcloudid := [1; 2; 3];
  Operations.var_object_type := [tt; tt; tt];
  Operations.var_duration := [3; 4; 0];
|}.

End Cases.

(** * Properties *)

(** ** Splitting the dotted class name *)

Section SplitFacts.

Lemma prefix_empty (s : string) : String.prefix "" s = true.
Proof. by destruct s. Qed.

Lemma prefix_dot (a : Ascii.ascii) (s : string) :
  String.prefix "." (String a s) = bool_decide (a = "."%char).
Proof.
  cbn [String.prefix]. destruct (Ascii.ascii_dec "." a) as [<-|Hne].
  - by rewrite prefix_empty, bool_decide_eq_true_2.
  - by rewrite bool_decide_eq_false_2.
Qed.

Lemma append_cons (a : Ascii.ascii) (s1 s2 : string) :
  String a s1 +:+ s2 = String a (s1 +:+ s2).
Proof. reflexivity. Qed.

Lemma free_of_cons (c a : Ascii.ascii) (s : string) :
  PyStr.free_of c (String a s) ↔ a ≠ c ∧ PyStr.free_of c s.
Proof.
  unfold PyStr.free_of. cbn [String.list_ascii_of_string].
  rewrite not_elem_of_cons. split; intros [??]; split; congruence.
Qed.

Lemma rfind_dot_free (s : string) :
  PyStr.free_of "." s → PyStr.rfind "." s = -1.
Proof.
  induction s as [|a s IH]; [done|].
  intros [Ha Hs]%free_of_cons. cbn [PyStr.rfind].
  rewrite (IH Hs), prefix_dot, bool_decide_eq_false_2; done.
Qed.

Lemma rfind_dot_last (m c : string) :
  PyStr.free_of "." c →
  PyStr.rfind "." (m +:+ "." +:+ c) = Z.of_nat (String.length m).
Proof.
  intros Hc. induction m as [|a m IH].
  - change ("" +:+ "." +:+ c) with (String "." c).
    cbn [PyStr.rfind String.length]. rewrite (rfind_dot_free c Hc), prefix_dot.
    done.
  - rewrite append_cons.
    cbn [PyStr.rfind String.length]. rewrite IH.
    destruct (Z.leb_spec 0 (Z.of_nat (String.length m))); lia.
Qed.

Lemma length_append (s1 s2 : string) :
  String.length (s1 +:+ s2) = (String.length s1 + String.length s2)%nat.
Proof.
  induction s1 as [|a s1 IH]; [done|]. rewrite append_cons. simpl. by rewrite IH.
Qed.

Lemma append_assoc (s1 s2 s3 : string) :
  s1 +:+ s2 +:+ s3 = (s1 +:+ s2) +:+ s3.
Proof.
  induction s1 as [|a s1 IH]; [done|]. by rewrite !append_cons, IH.
Qed.

Lemma take_append (s1 s2 : string) : PyStr.take (String.length s1) (s1 +:+ s2) = s1.
Proof.
  induction s1 as [|a s1 IH]; [by destruct s2|].
  rewrite append_cons. simpl. by rewrite IH.
Qed.

Lemma drop_append (s1 s2 : string) : PyStr.drop (String.length s1) (s1 +:+ s2) = s2.
Proof.
  induction s1 as [|a s1 IH]; [by destruct s2|].
  rewrite append_cons. simpl. by rewrite IH.
Qed.

Lemma take_drop_last (s : string) :
  PyStr.take (String.length s - 1) s = PyStr.drop_last s.
Proof.
  induction s as [|a s IH]; [done|].
  destruct s as [|b s]; [done|].
  cbn [String.length PyStr.drop_last] in *.
  replace (S (S (String.length s)) - 1)%nat with (S (String.length s)) by lia.
  cbn [PyStr.take]. f_equal.
  rewrite <- IH. f_equal. lia.
Qed.

Lemma norm_index_inside (len : nat) (k : nat) :
  (k ≤ len)%nat → PyStr.norm_index len (Z.of_nat k) = k.
Proof.
  intros Hk. unfold PyStr.norm_index.
  destruct (Z.ltb_spec (Z.of_nat k) 0); lia.
Qed.

Lemma norm_index_minus_one (len : nat) :
  PyStr.norm_index len (-1) = (len - 1)%nat.
Proof. unfold PyStr.norm_index. cbn. lia. Qed.

(** A string that holds a dot splits at its last dot. *)
Lemma split_at_last_dot (s : string) :
  "."%char ∈ String.list_ascii_of_string s →
  ∃ m c, s = m +:+ "." +:+ c ∧ PyStr.free_of "." c.
Proof.
  induction s as [|a s IH]; cbn [String.list_ascii_of_string].
  - by intros ?%elem_of_nil.
  - intros Hin.
    destruct (decide ("."%char ∈ String.list_ascii_of_string s)) as [Hs|Hs].
    + destruct (IH Hs) as (m & c & -> & Hc). by exists (String a m), c.
    + apply elem_of_cons in Hin as [<-|]; [|done].
      by exists "", s.
Qed.

Lemma split_base_class_dotted (m c : string) :
  PyStr.free_of "." c → split_base_class (m +:+ "." +:+ c) = (m, c).
Proof.
  intros Hc. unfold split_base_class, PyStr.slice_to, PyStr.slice_from.
  rewrite (rfind_dot_last m c Hc), !length_append. cbn [String.length].
  replace (Z.of_nat (String.length m) + 1) with (Z.of_nat (String.length m + 1)) by lia.
  rewrite !norm_index_inside by lia.
  rewrite take_append. f_equal.
  replace (String.length m + 1)%nat with (String.length (m +:+ ".")).
  - change (m +:+ "." +:+ c) with (m +:+ ("." +:+ c)).
    replace (m +:+ ("." +:+ c)) with ((m +:+ ".") +:+ c); [apply drop_append|].
    symmetry. apply append_assoc.
  - by rewrite length_append.
Qed.

Lemma split_base_class_undotted (s : string) :
  PyStr.free_of "." s → split_base_class s = (PyStr.drop_last s, s).
Proof.
  intros Hs. unfold split_base_class, PyStr.slice_to, PyStr.slice_from.
  rewrite (rfind_dot_free s Hs), norm_index_minus_one, take_drop_last.
  f_equal. change (-1 + 1) with (Z.of_nat 0).
  rewrite norm_index_inside by lia. done.
Qed.

Example split_dotted :
  split_base_class "objects.ObjectTwoScalesComposition"
  = ("objects", "ObjectTwoScalesComposition").
Proof. reflexivity. Qed.

Example split_two_dots : split_base_class "a.b.C" = ("a.b", "C").
Proof. reflexivity. Qed.

Example split_no_dot : split_base_class "Task" = ("Tas", "Task").
Proof. reflexivity. Qed.

Example split_empty : split_base_class "" = ("", "").
Proof. reflexivity. Qed.

Example split_trailing_dot : split_base_class "objects." = ("objects", "").
Proof. reflexivity. Qed.

End SplitFacts.

(** ** Dictionaries *)

Section DictFacts.
Context {V : Type}.
Implicit Types (d e : PyDict.t V) (k : string) (v : V).

Lemma get_set k k' v d :
  PyDict.get k (PyDict.set k' v d)
  = if decide (k = k') then Some v else PyDict.get k d.
Proof.
  induction d as [|[k0 v0] d IH]; cbn [PyDict.set PyDict.get].
  - destruct (String.eqb_spec k k'); by case_decide.
  - destruct (String.eqb_spec k' k0) as [->|Hne]; cbn [PyDict.get].
    + destruct (String.eqb_spec k k0); by case_decide.
    + rewrite IH. destruct (String.eqb_spec k k0) as [->|]; [|done].
      by rewrite decide_False.
Qed.

Lemma to_map_lookup d k : PyDict.to_map d !! k = PyDict.get k d.
Proof.
  unfold PyDict.to_map. induction d as [|[k0 v0] d IH]; [done|].
  cbn [list_to_map foldr PyDict.get uncurry].
  destruct (String.eqb_spec k k0) as [->|Hne].
  - apply lookup_insert_eq.
  - rewrite lookup_insert_ne by done. apply IH.
Qed.

Lemma to_map_set k v d :
  PyDict.to_map (PyDict.set k v d) = <[k := v]> (PyDict.to_map d).
Proof.
  apply map_eq. intros k'. rewrite to_map_lookup, get_set, lookup_insert.
  rewrite to_map_lookup. repeat case_decide; congruence.
Qed.

Lemma to_map_update d e :
  PyDict.wf e →
  PyDict.to_map (PyDict.update d e) = PyDict.to_map e ∪ PyDict.to_map d.
Proof.
  unfold PyDict.update, PyDict.wf. revert d.
  induction e as [|[k v] e IH]; intros d He; cbn [fold_left].
  - unfold PyDict.to_map at 2. cbn. by rewrite (left_id_L ∅ (∪)).
  - cbn in He. apply NoDup_cons in He as [Hk He].
    rewrite (IH _ He), to_map_set.
    unfold PyDict.to_map at 3. cbn [list_to_map foldr uncurry fst snd].
    fold (PyDict.to_map e).
    rewrite <- insert_union_l, <- insert_union_r; [done|].
    rewrite to_map_lookup. clear -Hk.
    induction e as [|[k0 v0] e IH]; [done|]. cbn in *.
    apply not_elem_of_cons in Hk as [Hne Hk].
    destruct (String.eqb_spec k k0); [done|]. by apply IH.
Qed.

Lemma get_update d e k :
  PyDict.wf e →
  PyDict.get k (PyDict.update d e)
  = match PyDict.get k e with
    | Some v => Some v
    | None => PyDict.get k d
    end.
Proof.
  intros He. rewrite <- !to_map_lookup, (to_map_update d e He).
  rewrite lookup_union. rewrite !to_map_lookup.
  destruct (PyDict.get k e), (PyDict.get k d); done.
Qed.

Lemma get_remove_ne k k' d :
  k ≠ k' → PyDict.get k (PyDict.remove k' d) = PyDict.get k d.
Proof.
  intros Hne. induction d as [|[k0 v0] d IH]; [done|].
  cbn [PyDict.remove PyDict.get].
  destruct (String.eqb_spec k' k0) as [->|]; cbn [PyDict.get].
  - by destruct (String.eqb_spec k k0).
  - by rewrite IH.
Qed.

End DictFacts.

Section ValueFacts.
Context {C : Type}.

Lemma str_keyed_dict (d : Dict) :
  str_keyed (map (λ kv, (VStr kv.1, kv.2)) d) = Some d.
Proof.
  unfold str_keyed. induction d as [|[k v] d IH]; [done|].
  cbn. cbn in IH. by rewrite IH.
Qed.

Lemma py_pairs_dict (d : Dict) :
  py_pairs (C := C) (VDict d) = inr (map (λ kv, (VStr kv.1, kv.2)) d).
Proof. done. Qed.
End ValueFacts.

(** ** The rendering routine *)

Section RenderingFacts.
Context `{RT : Runtime}.
Implicit Types (fig : Figure) (pp gp : Dict) (ds : PyDict.t DataArray).

Lemma get_remove_eq {V} (k : string) (d : PyDict.t V) :
  PyDict.get k (PyDict.remove k d) = None.
Proof.
  induction d as [|[k0 v0] d IH]; [done|]. cbn [PyDict.remove].
  destruct (String.eqb_spec k k0) as [->|Hne]; [done|].
  cbn [PyDict.get]. by destruct (String.eqb_spec k k0).
Qed.

(** *** Inversion of drawing code *)

Lemma draw_bind_inv {A B} (m : Draw A) (k : A → Draw B) fig b fig' :
  (m ≫= k) fig = inr (b, fig') →
  ∃ a fig1, m fig = inr (a, fig1) ∧ k a fig1 = inr (b, fig').
Proof.
  unfold mbind, draw_bind. destruct (m fig) as [e|[a fig1]]; [done|]. eauto.
Qed.

Lemma call_inv c fig u fig' : call c fig = inr (u, fig') → fig' = fig ++ [c].
Proof. unfold call. congruence. Qed.

Lemma eval_inv {A} (r : Res Err A) fig a fig' :
  eval r fig = inr (a, fig') → r = inr a ∧ fig' = fig.
Proof. unfold eval. destruct r; naive_solver. Qed.

Lemma ret_inv {A} (a : A) fig a' fig' :
  (mret a : Draw A) fig = inr (a', fig') → a' = a ∧ fig' = fig.
Proof. unfold mret, draw_ret. naive_solver. Qed.

Lemma throw_inv {A} (e : Err) fig (x : A * Figure) :
  (mthrow e : Draw A) fig = inr x → False.
Proof. done. Qed.

Lemma when_inv b (m : Draw unit) fig u fig' :
  when b m fig = inr (u, fig') →
  (b = true ∧ m fig = inr (u, fig')) ∨ (b = false ∧ fig' = fig).
Proof.
  destruct b; cbn [when]; [eauto|]. intros [_ ->]%ret_inv. eauto.
Qed.

Lemma contours_app fig1 fig2 :
  contours (fig1 ++ fig2) = contours fig1 ++ contours fig2.
Proof. apply omap_app. Qed.

Lemma labels_app fig1 fig2 : labels (fig1 ++ fig2) = labels fig1 ++ labels fig2.
Proof. apply omap_app. Qed.

End RenderingFacts.

(** Invert one step of drawing code that returned. *)
Ltac draw_step :=
  match goal with
  | H : (_ ≫= _) _ = inr (_, _) |- _ =>
      apply draw_bind_inv in H as (? & ? & ? & H)
  | H : call _ _ = inr (_, _) |- _ => apply call_inv in H; subst
  | H : eval _ _ = inr (_, _) |- _ => apply eval_inv in H as [H ->]
  | H : mret _ _ = inr (_, _) |- _ => apply ret_inv in H as [-> ->]
  | H : mthrow _ _ = inr _ |- _ => by apply throw_inv in H
  | H : when _ _ _ = inr (_, _) |- _ => apply when_inv in H as [[? H]|[? ->]]
  | H : (if ?b then _ else _) _ = inr (_, _) |- _ => destruct b eqn:?
  | H : (let '(_, _) := ?p in _) _ = inr (_, _) |- _ => destruct p
  end.

Section AxisFacts.
Context `{RT : Runtime}.
Implicit Types (fig : Figure) (pp gp : Dict) (ax : Axes).

(** The calls [_apply_plot_parameters_to_axis] makes, statement by
    statement; it never raises. *)
Lemma apply_plot_parameters_out ax pp gp (use_suptitle : bool) fig :
  _apply_plot_parameters_to_axis ax pp gp use_suptitle fig
  = inr (tt,
         fig
         ++ (if truthy (PyDict.get_or "despine" pp VNone)
             then [Despine ax] else [])
         ++ match PyDict.get "x_max" pp with
            | Some v => if truthy v then [SetXlim ax 0 v] else []
            | None => []
            end
         ++ match PyDict.get "y_max" pp with
            | Some v => if truthy v then [SetYlim ax 0 v] else []
            | None => []
            end
         ++ (let title :=
               PyDict.get_or "title" pp
                 (VStr (_generate_title_from_global_parameters gp)) in
             if use_suptitle then [Suptitle title; SetTitle ax (VStr "")]
             else [SetTitle ax title])).
Proof.
  unfold _apply_plot_parameters_to_axis, PyDict.get_or, py_getitem_str.
  destruct (PyDict.get "title" pp) as [t|];
    (destruct (PyDict.get "despine" pp) as [d|]; [destruct (truthy d)|]);
    (destruct (PyDict.get "x_max" pp) as [x|]; [destruct (truthy x)|]);
    (destruct (PyDict.get "y_max" pp) as [y|]; [destruct (truthy y)|]);
    destruct use_suptitle;
    unfold mbind, draw_bind, when, call, eval, mret, draw_ret, res_ret;
    cbn; rewrite <- ?(assoc_L (++)); cbn [app]; rewrite ?app_nil_r;
    reflexivity.
Qed.

(** What the calls of [_apply_plot_parameters_to_axis] hold. *)
Lemma apply_plot_parameters_calls ax pp gp (use_suptitle : bool) fig :
  ∃ out,
    _apply_plot_parameters_to_axis ax pp gp use_suptitle fig
    = inr (tt, fig ++ out)
    ∧ (∀ a lo hi, SetXlim a lo hi ∈ out ↔
         a = ax ∧ lo = 0 ∧ PyDict.get "x_max" pp = Some hi ∧ truthy hi = true)
    ∧ (∀ a lo hi, SetYlim a lo hi ∈ out ↔
         a = ax ∧ lo = 0 ∧ PyDict.get "y_max" pp = Some hi ∧ truthy hi = true)
    ∧ (let title :=
         PyDict.get_or "title" pp
           (VStr (_generate_title_from_global_parameters gp)) in
       if use_suptitle then Suptitle title ∈ out else SetTitle ax title ∈ out)
    ∧ contours out = [] ∧ labels out = [].
Proof.
  eexists. split; [apply apply_plot_parameters_out|].
  set (title := PyDict.get_or "title" pp _).
  split; [|split; [|split; [|split]]].
  - intros a lo hi. rewrite !elem_of_app. split.
    + intros [Hin|[Hin|[Hin|Hin]]].
      * destruct (truthy _); [apply list_elem_of_singleton in Hin|
                              apply elem_of_nil in Hin]; done.
      * destruct (PyDict.get "x_max" pp) as [x|]; [|by apply elem_of_nil in Hin].
        destruct (truthy x) eqn:Hx; [|by apply elem_of_nil in Hin].
        apply list_elem_of_singleton in Hin. by injection Hin as -> -> ->.
      * destruct (PyDict.get "y_max" pp) as [y|]; [|by apply elem_of_nil in Hin].
        destruct (truthy y); [|by apply elem_of_nil in Hin].
        by apply list_elem_of_singleton in Hin.
      * cbv zeta in Hin. destruct use_suptitle.
        -- apply elem_of_cons in Hin as [?|Hin]; [done|].
           by apply list_elem_of_singleton in Hin.
        -- by apply list_elem_of_singleton in Hin.
    + intros (-> & -> & -> & ->). right. left. by apply list_elem_of_singleton.
  - intros a lo hi. rewrite !elem_of_app. split.
    + intros [Hin|[Hin|[Hin|Hin]]].
      * destruct (truthy _); [apply list_elem_of_singleton in Hin|
                              apply elem_of_nil in Hin]; done.
      * destruct (PyDict.get "x_max" pp) as [x|]; [|by apply elem_of_nil in Hin].
        destruct (truthy x); [|by apply elem_of_nil in Hin].
        by apply list_elem_of_singleton in Hin.
      * destruct (PyDict.get "y_max" pp) as [y|]; [|by apply elem_of_nil in Hin].
        destruct (truthy y) eqn:Hy; [|by apply elem_of_nil in Hin].
        apply list_elem_of_singleton in Hin. by injection Hin as -> -> ->.
      * cbv zeta in Hin. destruct use_suptitle.
        -- apply elem_of_cons in Hin as [?|Hin]; [done|].
           by apply list_elem_of_singleton in Hin.
        -- by apply list_elem_of_singleton in Hin.
    + intros (-> & -> & -> & ->). right. right. left.
      by apply list_elem_of_singleton.
  - cbv zeta. destruct use_suptitle; rewrite !elem_of_app; do 3 right.
    + apply elem_of_cons. by left.
    + by apply list_elem_of_singleton.
  - rewrite !contours_app.
    destruct (truthy _), (PyDict.get "x_max" pp) as [x|],
      (PyDict.get "y_max" pp) as [y|], use_suptitle;
      try destruct (truthy x); try destruct (truthy y); reflexivity.
  - rewrite !labels_app.
    destruct (truthy _), (PyDict.get "x_max" pp) as [x|],
      (PyDict.get "y_max" pp) as [y|], use_suptitle;
      try destruct (truthy x); try destruct (truthy y); reflexivity.
Qed.
End AxisFacts.

Section ScalesFacts.
Context `{RT : Runtime}.
Implicit Types (fig : Figure) (pp gp : Dict) (ds : PyDict.t DataArray).

Lemma zip_cmaps_take {A} (l : list A) : zip cmaps l = zip cmaps (take 4 l).
Proof. by do 4 (destruct l as [|? l]; [done|]). Qed.

(** The loop over the zipped colormaps and datasets draws one contour
    and sets one label per pair. *)
Lemma plot_loop_calls (add_marginal_distributions : bool)
    (l : list (string * (string * DataArray))) fig u fig' :
  for_each l
    (λ '(cmap, (task_name, da)),
       call (Contour cmap da) ;;
       eval (collections_2 da) ;;
       call (SetLabel task_name) ;;
       when add_marginal_distributions
         (call (PlotMarginal AxMargX da) ;;
          call (PlotMarginal AxMargY da))) fig = inr (u, fig') →
  contours fig' = contours fig ++ map (λ x, (x.1, x.2.2)) l
  ∧ labels fig' = labels fig ++ map (λ x, x.2.1) l.
Proof.
  revert fig. induction l as [|[cmap [task_name da]] l IH]; intros fig H.
  - cbn [for_each] in H. draw_step. by rewrite !app_nil_r.
  - cbn [for_each] in H. apply draw_bind_inv in H as (? & fig1 & Hbody & H).
    apply IH in H as [-> ->].
    repeat draw_step;
      rewrite ?contours_app, ?labels_app; cbn; by rewrite ?app_nil_r, <- ?app_assoc.
Qed.

(** What a figure [_scales_dist_2d] returns is made of. *)
Lemma scales_dist_2d_inv ds pp gp fig :
  _scales_dist_2d ds pp gp = inr fig →
  ∃ before out,
    let add_marginal_distributions :=
      truthy (PyDict.get_or "add_marginal_distributions" pp (VBool false)) in
    _apply_plot_parameters_to_axis AxJoint pp gp add_marginal_distributions
      before = inr (tt, before ++ out)
    ∧ fig = before ++ out
              ++ [Legend (PyDict.get_or "legend_loc" pp (VStr "best"));
                  TightLayout]
    ∧ contours before = map (λ x, (x.1, x.2.2)) (zip cmaps (PyDict.items ds))
    ∧ labels before = map (λ x, x.2.1) (zip cmaps (PyDict.items ds)).
Proof.
  unfold _scales_dist_2d, drawn.
  set (add := truthy (PyDict.get_or "add_marginal_distributions" pp (VBool false))).
  match goal with |- context [?m []] => destruct (m []) as [e|[[] fig0]] eqn:H end;
    [done|].
  intros [= <-].
  apply draw_bind_inv in H as (? & f1 & H1 & H).
  apply draw_bind_inv in H as (has_ref & f2 & H2 & H).
  apply draw_bind_inv in H as (? & f3 & H3 & H).
  apply draw_bind_inv in H as (has_line & f4 & H4 & H).
  apply draw_bind_inv in H as (? & f5 & H5 & H).
  apply draw_bind_inv in H as (? & f6 & H6 & H).
  apply draw_bind_inv in H as (? & f7 & H7 & H).
  apply draw_bind_inv in H as ([] & f8 & H8 & H).
  apply plot_loop_calls in H6 as [Hc Hl].
  destruct (apply_plot_parameters_calls AxJoint pp gp add f7) as (out & Hout & _).
  rewrite Hout in H8. injection H8 as <-.
  exists f7, out. split; [done|].
  assert (contours f5 = [] ∧ labels f5 = []) as [Hc5 Hl5].
  { clear Hc Hl H7 H Hout.
    unfold fp_reference in *.
    repeat draw_step; rewrite ?contours_app, ?labels_app; done. }
  rewrite Hc5 in Hc. rewrite Hl5 in Hl. cbn [app] in Hc, Hl.
  assert (contours f7 = contours f6 ∧ labels f7 = labels f6) as [-> ->].
  { clear -H7. repeat draw_step; rewrite ?contours_app, ?labels_app; cbn;
      by rewrite ?app_nil_r. }
  clear -H Hc Hl. repeat draw_step. by rewrite <- !app_assoc.
Qed.

End ScalesFacts.

Section RenderingClaims.
Context `{RT : Runtime}.
Implicit Types (fig : Figure) (pp gp : Dict) (ds : PyDict.t DataArray).

Lemma apply_title_given ax pp gp1 gp2 (use_suptitle : bool) t :
  PyDict.get "title" pp = Some t →
  _apply_plot_parameters_to_axis ax pp gp1 use_suptitle
  = _apply_plot_parameters_to_axis ax pp gp2 use_suptitle.
Proof.
  intros Ht. unfold _apply_plot_parameters_to_axis, PyDict.get_or.
  by rewrite Ht.
Qed.

Lemma apply_same_default ax pp gp1 gp2 (use_suptitle : bool) :
  _generate_title_from_global_parameters gp1
  = _generate_title_from_global_parameters gp2 →
  _apply_plot_parameters_to_axis ax pp gp1 use_suptitle
  = _apply_plot_parameters_to_axis ax pp gp2 use_suptitle.
Proof.
  intros Ht. unfold _apply_plot_parameters_to_axis. by rewrite Ht.
Qed.

(** A key whose value is falsy is read like an absent key. *)
Lemma apply_falsy_limit ax pp gp (use_suptitle : bool) key v :
  key = "x_max" ∨ key = "y_max" →
  PyDict.get key pp = Some v → truthy v = false →
  _apply_plot_parameters_to_axis ax (PyDict.remove key pp) gp use_suptitle
  = _apply_plot_parameters_to_axis ax pp gp use_suptitle.
Proof.
  intros Hkey Hget Hv.
  unfold _apply_plot_parameters_to_axis, PyDict.get_or, py_getitem_str.
  destruct Hkey as [-> | ->];
    rewrite get_remove_eq, Hget, Hv, !get_remove_ne by done; done.
Qed.

(** C7.  The rendering routine reads the global parameters for the
    default title only: two global parameter sets that generate the
    same default title give the same figure, and when the plot
    parameters hold a title (truthy or not) the figure is the same for
    every global parameter set and shows that title. *)
Theorem global_parameters_only_default_title ds pp gp1 gp2 :
  (_generate_title_from_global_parameters gp1
   = _generate_title_from_global_parameters gp2 →
   _scales_dist_2d ds pp gp1 = _scales_dist_2d ds pp gp2)
  ∧ (∀ t, PyDict.get "title" pp = Some t →
       _scales_dist_2d ds pp gp1 = _scales_dist_2d ds pp gp2
       ∧ ∀ fig, _scales_dist_2d ds pp gp1 = inr fig →
           Suptitle t ∈ fig ∨ SetTitle AxJoint t ∈ fig).
Proof.
  split.
  - intros Ht. unfold _scales_dist_2d.
    by rewrite (apply_same_default AxJoint pp gp1 gp2 _ Ht).
  - intros t Ht. split.
    + unfold _scales_dist_2d.
      by rewrite (apply_title_given AxJoint pp gp1 gp2 _ t Ht).
    + intros fig (before & out & Hout & -> & _)%scales_dist_2d_inv.
      destruct (apply_plot_parameters_calls AxJoint pp gp1
                  (truthy (PyDict.get_or "add_marginal_distributions" pp
                             (VBool false))) before)
        as (out' & Hout' & _ & _ & Htitle & _).
      rewrite Hout in Hout'. injection Hout' as ->%app_inv_head.
      unfold PyDict.get_or in Htitle at 1. rewrite Ht in Htitle.
      destruct (truthy _); set_solver.
Qed.

(** C8.  Only the first four datasets are plotted: the figure is the
    one of the first four entries alone, and its contours are the
    entries paired in order with "Blues", "Reds", "Greens" and
    "Oranges", each line labelled with its entry's name. *)
Theorem only_first_four_datasets_plotted ds pp gp :
  _scales_dist_2d ds pp gp = _scales_dist_2d (take 4 ds) pp gp
  ∧ ∀ fig, _scales_dist_2d ds pp gp = inr fig →
      contours fig
      = zip_with (λ cmap kv, (cmap, kv.2))
          ["Blues"; "Reds"; "Greens"; "Oranges"] (PyDict.items ds)
      ∧ labels fig = take 4 (PyDict.items ds).*1.
Proof.
  split.
  - unfold _scales_dist_2d, PyDict.items. by rewrite (zip_cmaps_take ds).
  - intros fig (before & out & Hout & -> & Hc & Hl)%scales_dist_2d_inv.
    destruct (apply_plot_parameters_calls AxJoint pp gp
                (truthy (PyDict.get_or "add_marginal_distributions" pp
                           (VBool false))) before)
      as (out' & Hout' & _ & _ & _ & Hco & Hlo).
    rewrite Hout in Hout'. injection Hout' as ->%app_inv_head.
    rewrite !contours_app, !labels_app, Hc, Hl, Hco, Hlo. cbn.
    rewrite !app_nil_r. unfold PyDict.items. clear.
    split; by do 4 (destruct ds as [|[? ?] ds]; [done|]).
Qed.

(** C9.  [_apply_plot_parameters_to_axis] returns, and it sets the
    x-axis limit, to the interval from 0 to the value, exactly when
    "x_max" maps to a truthy value; likewise "y_max" and the y-axis.  A
    falsy value gives the calls of the parameters without the key. *)
Theorem axis_limit_iff_truthy (ax : Axes) pp gp (use_suptitle : bool) :
  ∃ calls,
    drawn (_apply_plot_parameters_to_axis ax pp gp use_suptitle) = inr calls
    ∧ (∀ a lo hi, SetXlim a lo hi ∈ calls ↔
         a = ax ∧ lo = 0 ∧ PyDict.get "x_max" pp = Some hi ∧ truthy hi = true)
    ∧ (∀ a lo hi, SetYlim a lo hi ∈ calls ↔
         a = ax ∧ lo = 0 ∧ PyDict.get "y_max" pp = Some hi ∧ truthy hi = true)
    ∧ (∀ key v, key = "x_max" ∨ key = "y_max" →
         PyDict.get key pp = Some v → truthy v = false →
         drawn (_apply_plot_parameters_to_axis ax (PyDict.remove key pp) gp
                  use_suptitle) = inr calls).
Proof.
  destruct (apply_plot_parameters_calls ax pp gp use_suptitle [])
    as (out & Hout & Hx & Hy & _).
  exists out. unfold drawn at 1. rewrite Hout. cbn [app].
  split; [done|]. split; [exact Hx|]. split; [exact Hy|].
  intros key v Hkey Hget Hv.
    rewrite (apply_falsy_limit ax pp gp use_suptitle key v Hkey Hget Hv).
    unfold drawn. by rewrite Hout.
Qed.

End RenderingClaims.

(** ** The task *)

Section TaskFacts.
Context `{RT : Runtime}.
Implicit Types (self : ComparisonPlot) (w : World).

(** *** Code that leaves the file system alone *)

Lemma stateless_ret {A} (a : A) : stateless (mret a).
Proof. by exists (inr a). Qed.

Lemma stateless_throw {A} (e : Err) : stateless (mthrow e : M A).
Proof. by exists (inl e). Qed.

Lemma stateless_pure {A} (r : Res Err A) : stateless (pure r).
Proof. by exists r. Qed.

Lemma stateless_bind {A B} (m : M A) (k : A → M B) :
  stateless m → (∀ a, stateless (k a)) → stateless (m ≫= k).
Proof.
  intros [r Hm] Hk. destruct r as [e|a].
  - exists (inl e). intros w. unfold mbind, M_bind. by rewrite Hm.
  - destruct (Hk a) as [r Hr]. exists r. intros w.
    unfold mbind, M_bind. by rewrite Hm.
Qed.

Lemma stateless_for_items {A S} (l : list A) (body : A → S → M S) (acc : S) :
  (∀ x acc, stateless (body x acc)) → stateless (for_items l body acc).
Proof.
  intros Hbody. revert acc. induction l as [|x l IH]; intros acc.
  - apply stateless_ret.
  - cbn [for_items]. apply stateless_bind; [apply Hbody | apply IH].
Qed.

Lemma stateless_get_task_class self : stateless (_get_task_class self).
Proof.
  unfold _get_task_class. destruct (split_base_class _) as [m c].
  destruct (import_module _) as [md|]; [|apply stateless_throw].
  destruct (md c); [apply stateless_ret | apply stateless_throw].
Qed.

Lemma stateless_requires self : stateless (requires self).
Proof.
  unfold requires. apply stateless_bind; [apply stateless_get_task_class|].
  intros c. apply stateless_for_items. intros [task_name parameter_set] tasks.
  apply stateless_bind; [apply stateless_pure|]. intros ps.
  apply stateless_bind; [apply stateless_pure|]. intros t.
  apply stateless_ret.
Qed.

Lemma stateless_input self : stateless (input self).
Proof.
  unfold input. apply stateless_bind; [apply stateless_requires|].
  intros tasks. apply stateless_ret.
Qed.

(** [requires] reads three parameters of the task only. *)
Lemma requires_reads self self' :
  base_class self' = base_class self →
  parameter_sets self' = parameter_sets self →
  global_parameters self' = global_parameters self →
  requires self' = requires self.
Proof.
  intros Hb Hp Hg. unfold requires, _get_task_class. by rewrite Hb, Hp, Hg.
Qed.

(** *** Running *)

Lemma open_target_world path w r w' :
  open_target path w = (r, w') → w' = w.
Proof.
  unfold open_target. destruct (w !! path) as [[]|]; congruence.
Qed.

(** Opening the inputs leaves the file system as it is. *)
Lemma open_inputs_world (inputs : list (string * string))
    (datasets : PyDict.t DataArray) w r w' :
  for_items inputs
    (λ '(task_name, task_input) datasets,
       ds ← open_target task_input;
       let ds := set_task_name task_name ds in
       mret (PyDict.set task_name ds datasets)) datasets w = (r, w') →
  w' = w.
Proof.
  revert datasets. induction inputs as [|[task_name task_input] l IH];
    intros datasets; cbn [for_items].
  - unfold mret, M_ret. congruence.
  - unfold mbind at 1, M_bind at 1. unfold mbind at 1, M_bind at 1.
    destruct (open_target task_input w) as [[e|da] w1] eqn:Hopen;
      apply open_target_world in Hopen as ->; [congruence|].
    unfold mret at 1, M_ret at 1. apply IH.
Qed.

Lemma select_renderer_inv (c : TaskClass) (plot_function : RenderFunction) :
  select_renderer c = inr plot_function →
  c = ObjectTwoScalesComposition ∧ plot_function = _scales_dist_2d.
Proof.
  unfold select_renderer.
  destruct (decide (c = ObjectTwoScalesComposition)); [|done].
  by intros [= <-].
Qed.

(** Either [run] raises with the file system untouched, or it reaches
    its last statement, [savefig] on its output, with the figure
    [_scales_dist_2d] returned and the file system untouched until
    then. *)
Lemma run_cases self w :
  (∃ e, run self w = (inl e, w))
  ∨ (∃ datasets fig,
       _scales_dist_2d datasets (plot_parameters self) (global_parameters self)
       = inr fig
       ∧ run self w = savefig (fn (output self)) fig w).
Proof.
  remember (run self w) as r eqn:Hr. unfold run in Hr.
  destruct (stateless_get_task_class self) as [rc Hc].
  destruct (stateless_input self) as [ri Hi].
  unfold mbind at 1, M_bind at 1 in Hr. rewrite Hc in Hr.
  destruct rc as [e|c]; [eauto|].
  unfold mbind at 1, M_bind at 1, pure at 1 in Hr.
  destruct (select_renderer c) as [e|plot_function] eqn:Hsel; [eauto|].
  apply select_renderer_inv in Hsel as [_ ->].
  unfold mbind at 1, M_bind at 1 in Hr. rewrite Hi in Hr.
  destruct ri as [e|inputs]; [eauto|].
  unfold mbind at 1, M_bind at 1 in Hr.
  match type of Hr with
  | context [for_items ?l ?b ?a w] =>
      destruct (for_items l b a w) as [[e|datasets] w1] eqn:Hopen
  end; apply open_inputs_world in Hopen as ->; [eauto|].
  unfold mbind at 1, M_bind at 1, pure at 1 in Hr.
  destruct (_scales_dist_2d _ _ _) as [e|fig] eqn:Hfig; eauto 6.
Qed.

(** One variant: the task built for it is the class called with the
    merged parameters. *)
Lemma requires_constructs_merged (self : ComparisonPlot) (w : World)
    (c : TaskClass) (label : string) (variant : Dict) :
  _get_task_class self w = (inr c, w) →
  parameter_sets self = [(label, VDict variant)] →
  requires self w
  = (match construct c (PyDict.update (global_parameters self) variant) with
     | inl e => inl e
     | inr t => inr [(label, t)]
     end, w).
Proof.
  intros Hc Hp. unfold requires. unfold mbind at 1, M_bind at 1.
  rewrite Hc, Hp. cbn [PyDict.items for_items].
  assert (merge_parameters (global_parameters self) (VDict variant)
          = inr (PyDict.update (global_parameters self) variant)) as ->.
  { unfold merge_parameters. rewrite (py_pairs_dict (C := TaskClass)).
    unfold mbind, res_bind. by rewrite str_keyed_dict. }
  unfold mbind, M_bind, pure, mret, M_ret.
  by destruct (construct c _).
Qed.
(** A target that does not exist has no entry in the file system. *)
Lemma target_absent path w : target_exists path w = false → w !! path = None.
Proof.
  unfold target_exists. intros H%bool_decide_eq_false.
  destruct (w !! path) eqn:E; [|done]. destruct H. by eexists.
Qed.
End TaskFacts.

Section TaskClaims.
Context `{RT : Runtime}.
Implicit Types (self : ComparisonPlot) (w : World).

(** C2, as amended.  A [run] that starts with the target absent and
    raises ends in one of two states.  Either the file system is as it
    was and the target is still absent: this is so for every error
    raised before the last statement and for a write that is refused.
    Or [savefig], the last statement, failed after it had created the
    file: then the truncated file is left at the target location, for
    [run] writes straight to the target and cleans nothing up.  In
    neither state does the target hold an image. *)
Theorem run_failure_leaves_no_image self w e w' :
  target_exists (fn (output self)) w = false →
  run self w = (inl e, w') →
  ((w' = w ∧ target_exists (fn (output self)) w' = false)
   ∨ (write_outcome (fn (output self)) = Truncated
      ∧ e = OSError (fn (output self))
      ∧ (∃ datasets fig,
           _scales_dist_2d datasets (plot_parameters self)
             (global_parameters self) = inr fig)
      ∧ w' = <[fn (output self) := TruncatedFile]> w
      ∧ target_exists (fn (output self)) w' = true))
  ∧ ∀ fig, w' !! fn (output self) ≠ Some (ImageFile fig).
Proof.
  intros Habsent Hrun.
  pose proof (target_absent _ _ Habsent) as Hnone.
  destruct (run_cases self w) as [[e' He]|(datasets & fig & Hfig & Hsave)].
  - rewrite He in Hrun. injection Hrun as _ <-.
    split; [by left|]. intros fig. by rewrite Hnone.
  - rewrite Hsave in Hrun. unfold savefig in Hrun.
    destruct (write_outcome (fn (output self))) eqn:Hwrite; [done| |].
    + injection Hrun as _ <-. split; [by left|]. intros fig'. by rewrite Hnone.
    + injection Hrun as <- <-. split.
      * right. split; [done|]. split; [done|]. split; [by eauto|].
        split; [done|]. unfold target_exists.
        apply bool_decide_eq_true. rewrite lookup_insert_eq. by eexists.
      * intros fig'. by rewrite lookup_insert_eq.
Qed.


(** C4.  The parameters handed to a dependency's constructor are the
    global parameters updated with the variant's: a key of the variant
    has the variant's value, any other key the global value, and two
    pairs of inputs that hold the same mappings in another order
    resolve to the same mapping. *)
Theorem merge_parameters_shallow_merge
    (global_parameters variant_parameters : Dict)
    (global_parameters' variant_parameters' : Dict) :
  PyDict.wf variant_parameters →
  PyDict.wf variant_parameters' →
  PyDict.to_map global_parameters' = PyDict.to_map global_parameters →
  PyDict.to_map variant_parameters' = PyDict.to_map variant_parameters →
  ∃ resolved resolved',
    merge_parameters global_parameters (VDict variant_parameters)
    = inr resolved
    ∧ merge_parameters global_parameters' (VDict variant_parameters')
      = inr resolved'
    ∧ (∀ k, PyDict.get k resolved
            = match PyDict.get k variant_parameters with
              | Some v => Some v
              | None => PyDict.get k global_parameters
              end)
    ∧ PyDict.to_map resolved
      = PyDict.to_map variant_parameters ∪ PyDict.to_map global_parameters
    ∧ PyDict.to_map resolved' = PyDict.to_map resolved.
Proof.
  intros Hv Hv' Hg Hvv.
  exists (PyDict.update global_parameters variant_parameters),
         (PyDict.update global_parameters' variant_parameters').
  unfold merge_parameters.
  rewrite !(py_pairs_dict (C := TaskClass)).
  unfold mbind, res_bind. rewrite !str_keyed_dict.
  repeat split.
  - intros k. by apply get_update.
  - by apply to_map_update.
  - by rewrite !to_map_update, Hg, Hvv.
Qed.

(** C5.  [requires] is a function of [base_class], [parameter_sets] and
    [global_parameters]: two tasks that agree on them get equal
    results on any file systems, and a call, or any number of calls
    in a row, leaves the file system as it is. *)
Theorem requires_deterministic_and_pure self self' w w' :
  base_class self' = base_class self →
  parameter_sets self' = parameter_sets self →
  global_parameters self' = global_parameters self →
  (requires self' w').1 = (requires self w).1
  ∧ (requires self w).2 = w
  ∧ ∀ n, Nat.iter n (λ w0, (requires self w0).2) w = w.
Proof.
  intros Hb Hp Hg. rewrite (requires_reads self self' Hb Hp Hg).
  destruct (stateless_requires self) as [r Hr].
  split; [|split].
  - by rewrite !Hr.
  - by rewrite Hr.
  - intros n. induction n as [|n IH]; [done|].
    by rewrite Nat.iter_succ, IH, Hr.
Qed.


(** C10.  [_get_task_class] splits [base_class] at its last dot: the
    module suffix is what stands before it and the class name what
    stands after it.  Without a dot the module suffix is [base_class]
    without its last character and the class name is all of
    [base_class].  Every [base_class] goes on to the import: the call
    fails only when the module is not found or lacks the attribute. *)
Theorem get_task_class_splits_at_last_dot self w :
  (∀ m c, base_class self = m +:+ "." +:+ c → PyStr.free_of "." c →
     split_base_class (base_class self) = (m, c))
  ∧ (PyStr.free_of "." (base_class self) →
     split_base_class (base_class self)
     = (PyStr.drop_last (base_class self), base_class self))
  ∧ _get_task_class self w
    = (let module_name :=
         "genesis.utils.pipeline.data."
         +:+ (split_base_class (base_class self)).1 in
       match import_module module_name with
       | None => inl (ModuleNotFoundError module_name)
       | Some class_module =>
           match class_module (split_base_class (base_class self)).2 with
           | None =>
               inl (AttributeError (split_base_class (base_class self)).2)
           | Some c => inr c
           end
       end, w).
Proof.
  split; [|split].
  - intros m c -> Hc. by apply split_base_class_dotted.
  - apply split_base_class_undotted.
  - unfold _get_task_class. destruct (split_base_class _) as [m c].
    cbn [fst snd]. destruct (import_module _) as [md|]; [|done].
    by destruct (md c).
Qed.

End TaskClaims.

(** ** The scheduler *)

Section SchedulerClaims.
Context `{RT : Runtime}.

(** Step 1 of [materialize]: a node whose output is present is
    returned as it is, and the state is the one before the call. *)
Lemma materialize_present out dependencies run_ (st : Sched) :
  target_exists out (disk st) = true →
  materialize (MkNode out dependencies run_) st = (inr out, st).
Proof. intros H. cbn [materialize]. by rewrite H. Qed.

(** A node without dependencies whose output is absent is run, and the
    run is logged. *)
Lemma materialize_absent_runs out run_ (st : Sched) :
  target_exists out (disk st) = false →
  run_log (materialize (MkNode out (mret []) run_) st).2
  = run_log st ++ [out].
Proof.
  intros H. cbn [materialize]. rewrite H. cbn.
  by destruct (run_ [] (disk st)) as [[e|u] w'].
Qed.

(** C1.  When the output of a comparison is present, [materialize]
    returns it and leaves the disk and the log of invoked [run]s as
    they were: neither the node nor a dependency is run.  This holds
    for every task of that name, whatever its parameter sets, global
    parameters and base class have become. *)
Theorem cache_short_circuit (upstream : Task → Node)
    (self self' : ComparisonPlot) (st : Sched) :
  name self' = name self →
  target_exists (fn (output self)) (disk st) = true →
  materialize (comparison_node upstream self') st
  = (inr (fn (output self)), st)
  ∧ run_log (materialize (comparison_node upstream self') st).2 = run_log st.
Proof.
  intros Hname Hex. unfold comparison_node.
  assert (fn (output self') = fn (output self)) as Hout.
  { unfold output. cbn. by rewrite Hname. }
  rewrite Hout, materialize_present by done. done.
Qed.

End SchedulerClaims.

(** ** Evaluation on the concrete runtime *)

Module ScenarioFacts.
Import Scenario.
#[local] Existing Instance demo.

Example resolve_overrides :
  merge_parameters [("a", VInt 1); ("b", VInt 2)] (VDict [("b", VInt 3)])
  = inr [("a", VInt 1); ("b", VInt 3)].
Proof. reflexivity. Qed.

Example resolve_from_empty :
  merge_parameters [] (VDict [("x", VInt 5)]) = inr [("x", VInt 5)].
Proof. reflexivity. Qed.

Example requires_cmp1 :
  (requires cmp1 ∅).1
  = inr [("v1", {| demo_class := TwoScales;
                   demo_params := [("bins", VInt 10); ("alpha", VInt 1)] |});
         ("v2", {| demo_class := TwoScales;
                   demo_params := [("bins", VInt 10); ("alpha", VInt 2)] |})].
Proof. reflexivity. Qed.

(** A miss runs the dependency that is absent, then the comparison. *)
Example materialize_miss_runs :
  run_log (materialize (comparison_node demo_upstream cmp_changed)
             {| disk := ∅; run_log := [] |}).2
  = ["bins=20_alpha=1.nc"; "cmp1.png"].
Proof. vm_compute. reflexivity. Qed.

(** The figure of the first of six datasets alone, with a falsy
    "x_max" and a truthy "y_max". *)
Example scales_dist_2d_limits :
  _scales_dist_2d (take 1 six_datasets) limits [("bins", VInt 10)]
  = inr [Subplots []; Contour "Blues" (array "1"); SetLabel "a";
         SetYlim AxJoint 0 (VInt 3); SetTitle AxJoint (VStr "bins: 10");
         Legend (VStr "best"); TightLayout].
Proof. vm_compute. reflexivity. Qed.

(** Inputs that [requires] and [run] reject before anything is drawn. *)
Example unknown_module_raises :
  run {| base_class := "missing.Task"; parameter_sets := [];
         global_parameters := []; plot_parameters := []; name := "x" |}
      inputs_ready
  = (inl (ModuleNotFoundError "genesis.utils.pipeline.data.missing"),
     inputs_ready).
Proof. vm_compute. reflexivity. Qed.

Lemma cache_short_circuit_witness :
  name cmp_changed = name cmp1
  ∧ target_exists (fn (output cmp1)) (disk old_plot_state) = true
  ∧ materialize (comparison_node demo_upstream cmp_changed) old_plot_state
    = (inr (fn (output cmp1)), old_plot_state)
  ∧ run_log (materialize (comparison_node demo_upstream cmp_changed)
               old_plot_state).2 = run_log old_plot_state.
Proof.
  split; [reflexivity|]. split; [vm_compute; reflexivity|].
  apply (cache_short_circuit (RT := demo) demo_upstream cmp1 cmp_changed
           old_plot_state);
    [reflexivity | vm_compute; reflexivity].
Defined.

(** C2, counterexample.  The target is absent, every input is on disk
    and the figure is rendered; the write fails after the file was
    created.  [run] raises, and the truncated file is at the target
    location afterwards. *)
Lemma run_failure_leaves_partial_file :
  target_exists (fn (output cmp_full)) inputs_ready = false
  ∧ (run cmp_full inputs_ready).1 = inl (OSError "full/cmp1.png")
  ∧ (run cmp_full inputs_ready).2 !! fn (output cmp_full) = Some TruncatedFile
  ∧ target_exists (fn (output cmp_full)) (run cmp_full inputs_ready).2 = true.
Proof. repeat split; reflexivity. Qed.

Lemma run_failure_leaves_no_image_witness :
  target_exists (fn (output cmp_other)) inputs_ready = false
  ∧ run cmp_other inputs_ready
    = (inl (NotImplementedError OneScale), inputs_ready)
  ∧ (∀ fig, inputs_ready !! fn (output cmp_other) ≠ Some (ImageFile fig))
  ∧ target_exists (fn (output cmp_full)) inputs_ready = false
  ∧ run cmp_full inputs_ready
    = (inl (OSError "full/cmp1.png"),
       <["full/cmp1.png" := TruncatedFile]> inputs_ready)
  ∧ (∀ fig, <["full/cmp1.png" := TruncatedFile]> inputs_ready
            !! fn (output cmp_full) ≠ Some (ImageFile fig)).
Proof.
  assert (target_exists (fn (output cmp_other)) inputs_ready = false)
    as Habsent by reflexivity.
  assert (run cmp_other inputs_ready
          = (inl (NotImplementedError OneScale), inputs_ready))
    as Hrun by reflexivity.
  assert (target_exists (fn (output cmp_full)) inputs_ready = false)
    as Habsent' by reflexivity.
  assert (run cmp_full inputs_ready
          = (inl (OSError "full/cmp1.png"),
             <["full/cmp1.png" := TruncatedFile]> inputs_ready))
    as Hrun' by reflexivity.
  split; [exact Habsent|]. split; [exact Hrun|].
  split; [exact (proj2 (run_failure_leaves_no_image (RT := demo) cmp_other
                          inputs_ready _ _ Habsent Hrun))|].
  split; [exact Habsent'|]. split; [exact Hrun'|].
  exact (proj2 (run_failure_leaves_no_image (RT := demo) cmp_full
                  inputs_ready _ _ Habsent' Hrun')).
Defined.



Lemma merge_parameters_shallow_merge_witness :
  PyDict.wf [("b", VInt 3)]
  ∧ PyDict.to_map [("b", VInt 2); ("a", VInt 1)]
    = PyDict.to_map [("a", VInt 1); ("b", VInt 2)]
  ∧ ∃ resolved resolved',
      merge_parameters [("a", VInt 1); ("b", VInt 2)] (VDict [("b", VInt 3)])
      = inr resolved
      ∧ merge_parameters [("b", VInt 2); ("a", VInt 1)] (VDict [("b", VInt 3)])
        = inr resolved'
      ∧ (∀ k, PyDict.get k resolved
              = match PyDict.get k [("b", VInt 3)] with
                | Some v => Some v
                | None => PyDict.get k [("a", VInt 1); ("b", VInt 2)]
                end)
      ∧ PyDict.to_map resolved
        = PyDict.to_map [("b", VInt 3)]
          ∪ PyDict.to_map [("a", VInt 1); ("b", VInt 2)]
      ∧ PyDict.to_map resolved' = PyDict.to_map resolved.
Proof.
  assert (PyDict.wf [("b", VInt 3)]) as Hwf.
  { unfold PyDict.wf. cbn. apply NoDup_singleton. }
  assert (PyDict.to_map [("b", VInt 2); ("a", VInt 1)]
          = PyDict.to_map [("a", VInt 1); ("b", VInt 2)]) as Hperm.
  { vm_compute. reflexivity. }
  split; [exact Hwf|]. split; [exact Hperm|].
  apply (merge_parameters_shallow_merge
           [("a", VInt 1); ("b", VInt 2)] [("b", VInt 3)]
           [("b", VInt 2); ("a", VInt 1)] [("b", VInt 3)]
           Hwf Hwf Hperm eq_refl).
Defined.

Lemma requires_deterministic_and_pure_witness :
  base_class cmp_restyled = base_class cmp1
  ∧ parameter_sets cmp_restyled = parameter_sets cmp1
  ∧ global_parameters cmp_restyled = global_parameters cmp1
  ∧ (requires cmp_restyled with_old_plot).1 = (requires cmp1 inputs_ready).1
  ∧ (requires cmp1 inputs_ready).2 = inputs_ready
  ∧ ∀ n, Nat.iter n (λ w0, (requires cmp1 w0).2) inputs_ready = inputs_ready.
Proof.
  split; [reflexivity|]. split; [reflexivity|]. split; [reflexivity|].
  apply (requires_deterministic_and_pure cmp1 cmp_restyled
           inputs_ready with_old_plot); reflexivity.
Defined.


Lemma global_parameters_only_default_title_witness :
  PyDict.get "title" (plot_parameters cmp1) = Some (VStr "two variants")
  ∧ _scales_dist_2d six_datasets (plot_parameters cmp1) [("bins", VInt 10)]
    = _scales_dist_2d six_datasets (plot_parameters cmp1) [("bins", VInt 20)]
  ∧ ∀ fig,
      _scales_dist_2d six_datasets (plot_parameters cmp1) [("bins", VInt 10)]
      = inr fig →
      Suptitle (VStr "two variants") ∈ fig
      ∨ SetTitle AxJoint (VStr "two variants") ∈ fig.
Proof.
  split; [reflexivity|].
  apply (proj2 (global_parameters_only_default_title (RT := demo) six_datasets
                  (plot_parameters cmp1)
                  [("bins", VInt 10)] [("bins", VInt 20)])).
  reflexivity.
Defined.

Lemma only_first_four_datasets_plotted_witness :
  ∃ fig,
    _scales_dist_2d six_datasets limits [] = inr fig
    ∧ _scales_dist_2d (take 4 six_datasets) limits [] = inr fig
    ∧ contours fig
      = [("Blues", array "1"); ("Reds", array "2");
         ("Greens", array "3"); ("Oranges", array "4")]
    ∧ labels fig = ["a"; "b"; "c"; "d"].
Proof.
  destruct (only_first_four_datasets_plotted (RT := demo) six_datasets limits [])
    as [Hsame Hplotted].
  eexists. split; [vm_compute; reflexivity|].
  split; [etrans; [symmetry; exact Hsame | vm_compute; reflexivity]|].
  refine (Hplotted _ _). vm_compute. reflexivity.
Defined.

Lemma axis_limit_iff_truthy_witness :
  PyDict.get "x_max" limits = Some (VInt 0)
  ∧ truthy (VInt 0) = false
  ∧ ∃ calls,
      drawn (_apply_plot_parameters_to_axis AxJoint limits [] false)
      = inr calls
      ∧ (∀ a lo hi, SetXlim a lo hi ∉ calls)
      ∧ SetYlim AxJoint 0 (VInt 3) ∈ calls
      ∧ drawn (_apply_plot_parameters_to_axis AxJoint
                 (PyDict.remove "x_max" limits) [] false) = inr calls.
Proof.
  split; [reflexivity|]. split; [reflexivity|].
  destruct (axis_limit_iff_truthy AxJoint limits [] false)
    as (calls & Hcalls & Hx & Hy & Hfalsy).
  exists calls. split; [exact Hcalls|]. split; [|split].
  - intros a lo hi (_ & _ & [= <-] & Hhi)%Hx. discriminate Hhi.
  - apply Hy. repeat split; reflexivity.
  - apply (Hfalsy "x_max" (VInt 0)); [by left | reflexivity | reflexivity].
Defined.

Lemma get_task_class_splits_at_last_dot_witness :
  base_class cmp1 = "objects" +:+ "." +:+ "ObjectTwoScalesComposition"
  ∧ PyStr.free_of "." "ObjectTwoScalesComposition"
  ∧ split_base_class (base_class cmp1)
    = ("objects", "ObjectTwoScalesComposition")
  ∧ _get_task_class cmp1 inputs_ready = (inr TwoScales, inputs_ready).
Proof.
  assert (PyStr.free_of "." "ObjectTwoScalesComposition") as Hfree.
  { unfold PyStr.free_of. apply (bool_decide_unpack _). vm_compute. exact I. }
  split; [reflexivity|]. split; [exact Hfree|].
  destruct (get_task_class_splits_at_last_dot cmp1 inputs_ready)
    as (Hdot & _ & Hget).
  split; [exact (Hdot "objects" "ObjectTwoScalesComposition" eq_refl Hfree)|].
  rewrite Hget. reflexivity.
Defined.

Example undotted_base_class :
  PyStr.free_of "." "Task"
  ∧ split_base_class "Task" = (PyStr.drop_last "Task", "Task")
  ∧ PyStr.drop_last "Task" = "Tas".
Proof.
  split; [|split; reflexivity].
  unfold PyStr.free_of. apply (bool_decide_unpack _). vm_compute. exact I.
Qed.
End ScenarioFacts.

(** * Further properties *)

(** ** The shape of a rendered figure *)

Section RenderingShape.
Context `{RT : Runtime}.
Implicit Types (fig : Figure) (pp gp : Dict) (ds : PyDict.t DataArray).

(** The loop over the zipped colormaps and datasets, call by call: it
    returns only when every array gives a third contour collection. *)
Lemma plot_loop_shape (add_marginal_distributions : bool)
    (l : list (string * (string * DataArray))) fig u fig' :
  for_each l
    (λ '(cmap, (task_name, da)),
       call (Contour cmap da) ;;
       eval (collections_2 da) ;;
       call (SetLabel task_name) ;;
       when add_marginal_distributions
         (call (PlotMarginal AxMargX da) ;;
          call (PlotMarginal AxMargY da))) fig = inr (u, fig') →
  Forall (λ x, (2 < n_collections x.2.2)%nat) l
  ∧ fig' = fig ++ flat_map
                    (λ x, [Contour x.1 x.2.2; SetLabel x.2.1]
                          ++ (if add_marginal_distributions
                              then [PlotMarginal AxMargX x.2.2;
                                    PlotMarginal AxMargY x.2.2]
                              else [])) l.
Proof.
  revert fig. induction l as [|[cmap [task_name da]] l IH]; intros fig H.
  - cbn [for_each] in H. draw_step. by rewrite app_nil_r.
  - cbn [for_each] in H. apply draw_bind_inv in H as (? & fig1 & Hbody & H).
    apply IH in H as [Hall ->].
    assert ((2 < n_collections da)%nat ∧
            fig1 = fig ++ [Contour cmap da; SetLabel task_name]
                       ++ (if add_marginal_distributions
                           then [PlotMarginal AxMargX da; PlotMarginal AxMargY da]
                           else [])) as [Hn ->].
    { apply draw_bind_inv in Hbody as (? & f1 & H1 & Hbody).
      apply draw_bind_inv in Hbody as (? & f2 & H2 & Hbody).
      apply draw_bind_inv in Hbody as (? & f3 & H3 & Hbody).
      apply call_inv in H1 as ->. apply eval_inv in H2 as [H2 ->].
      apply call_inv in H3 as ->.
      unfold collections_2 in H2.
      destruct (Nat.leb_spec (n_collections da) 2) as [|Hn]; [done|].
      split; [done|].
      destruct add_marginal_distributions; cbn [when] in Hbody.
      - repeat draw_step. by rewrite <- !app_assoc.
      - draw_step. by rewrite <- !app_assoc, app_nil_r. }
    split; [by constructor|].
    cbn [flat_map fst snd]. by rewrite <- !app_assoc.
Qed.

(** A figure [_scales_dist_2d] returns, part by part: the call that
    opens the figure, the reference annotation, the unit line, the
    contours, the clean-up of the marginal axes, the axis set-up, the
    legend and the layout. *)
Lemma scales_dist_2d_shape ds pp gp fig :
  _scales_dist_2d ds pp gp = inr fig →
  let add := truthy (PyDict.get_or "add_marginal_distributions" pp
                       (VBool false)) in
  let fig_params := PyDict.get_or "fig_params" pp (VDict []) in
  let annotations := PyDict.get_or "annotations" pp (VList []) in
  ∃ opening reference unit_line out,
    (if add then
       ∃ h, opening = NewPlotGrid h
            ∧ ((py_in (C := TaskClass) "figsize" fig_params = inr false ∧ h = None)
               ∨ (py_in (C := TaskClass) "figsize" fig_params = inr true
                  ∧ ∃ figsize hv,
                      py_getitem_str (C := TaskClass) "figsize" fig_params = inr figsize
                      ∧ py_getitem_nat (C := TaskClass) 1 figsize = inr hv ∧ h = Some hv))
     else ∃ kw, py_kwargs (C := TaskClass) fig_params = inr kw ∧ opening = Subplots kw)
    ∧ ((py_in (C := TaskClass) "filamentarity_planarity_reference" annotations = inr false
        ∧ reference = [])
       ∨ (py_in (C := TaskClass) "filamentarity_planarity_reference" annotations = inr true
          ∧ ∃ kwargs, reference_kwargs annotations = inr kwargs
                      ∧ PyDict.contains "ax" kwargs = false
                      ∧ PyDict.contains "shape" kwargs = false
                      ∧ PyDict.contains "color" kwargs = false
                      ∧ reference = [FpReference kwargs]))
    ∧ ((py_in (C := TaskClass) "unit_line" annotations = inr false ∧ unit_line = [])
       ∨ (py_in (C := TaskClass) "unit_line" annotations = inr true
          ∧ unit_line
            = [if has_axline then Axline
               else Warn "Upgrade to matplotlib >= 3.3.0 to draw unit line"]))
    ∧ Forall (λ x, (2 < n_collections x.2.2)%nat) (zip cmaps (PyDict.items ds))
    ∧ drawn (_apply_plot_parameters_to_axis AxJoint pp gp add) = inr out
    ∧ fig = opening :: reference ++ unit_line
            ++ flat_map
                 (λ x, [Contour x.1 x.2.2; SetLabel x.2.1]
                       ++ (if add then [PlotMarginal AxMargX x.2.2;
                                        PlotMarginal AxMargY x.2.2]
                           else []))
                 (zip cmaps (PyDict.items ds))
            ++ (if add then
                  [SetTitle AxMargX (VStr ""); SetXlabel AxMargX "";
                   SetYlabel AxMargX ""; SetTitle AxMargY (VStr "");
                   SetXlabel AxMargY ""; SetYlabel AxMargY "";
                   SetXticklabels AxMargY; SetYticklabels AxMargX]
                else [])
            ++ out
            ++ [Legend (PyDict.get_or "legend_loc" pp (VStr "best"));
                TightLayout].
Proof.
  intros Hfig add fig_params annotations.
  unfold _scales_dist_2d, drawn in Hfig. fold add fig_params annotations in Hfig.
  match type of Hfig with
  | context [?m []] => destruct (m []) as [e|[[] fig0]] eqn:H
  end; [done|].
  injection Hfig as <-.
  apply draw_bind_inv in H as (? & f1 & H1 & H).
  apply draw_bind_inv in H as (has_ref & f2 & H2 & H).
  apply draw_bind_inv in H as (? & f3 & H3 & H).
  apply draw_bind_inv in H as (has_line & f4 & H4 & H).
  apply draw_bind_inv in H as (? & f5 & H5 & H).
  apply draw_bind_inv in H as (? & f6 & H6 & H).
  apply draw_bind_inv in H as (? & f7 & H7 & H).
  apply draw_bind_inv in H as ([] & f8 & H8 & H).
  apply eval_inv in H2 as [H2 ->]. apply eval_inv in H4 as [H4 ->].
  apply plot_loop_shape in H6 as [Hall ->].
  rewrite apply_plot_parameters_out in H8. injection H8 as <-.
  assert (∃ opening,
    f1 = [opening]
    ∧ if add then
        ∃ h, opening = NewPlotGrid h
             ∧ ((py_in (C := TaskClass) "figsize" fig_params = inr false ∧ h = None)
                ∨ (py_in (C := TaskClass) "figsize" fig_params = inr true
                   ∧ ∃ figsize hv,
                       py_getitem_str (C := TaskClass) "figsize" fig_params = inr figsize
                       ∧ py_getitem_nat (C := TaskClass) 1 figsize = inr hv ∧ h = Some hv))
      else ∃ kw, py_kwargs (C := TaskClass) fig_params = inr kw ∧ opening = Subplots kw)
    as (opening & -> & Hopening).
  { clear -H1. destruct add.
    - apply draw_bind_inv in H1 as (has & g1 & Hhas & H1).
      apply eval_inv in Hhas as [Hhas ->].
      apply draw_bind_inv in H1 as (h & g2 & Hh & H1).
      apply call_inv in H1 as ->. destruct has.
      + apply draw_bind_inv in Hh as (figsize & g3 & Hf & Hh).
        apply eval_inv in Hf as [Hf ->].
        apply draw_bind_inv in Hh as (hv & g4 & Hv & Hh).
        apply eval_inv in Hv as [Hv ->]. apply ret_inv in Hh as [-> ->].
        eexists. split; [reflexivity|]. eexists. split; [reflexivity|].
        right. split; [done|]. by exists figsize, hv.
      + apply ret_inv in Hh as [-> ->].
        eexists. split; [reflexivity|]. eexists. split; [reflexivity|].
        by left.
    - apply draw_bind_inv in H1 as (kw & g1 & Hkw & H1).
      apply eval_inv in Hkw as [Hkw ->]. apply call_inv in H1 as ->.
      eexists. split; [reflexivity|]. eauto. }
  assert (∃ reference,
    f3 = [opening] ++ reference
    ∧ ((has_ref = false ∧ reference = [])
       ∨ (has_ref = true
          ∧ ∃ kwargs, reference_kwargs annotations = inr kwargs
                      ∧ PyDict.contains "ax" kwargs = false
                      ∧ PyDict.contains "shape" kwargs = false
                      ∧ PyDict.contains "color" kwargs = false
                      ∧ reference = [FpReference kwargs])))
    as (reference & -> & Href).
  { clear -H3. apply when_inv in H3 as [[-> H3]|[-> ->]].
    - apply draw_bind_inv in H3 as (kwargs & g1 & Hkw & H3).
      apply eval_inv in Hkw as [Hkw ->]. unfold fp_reference in H3.
      destruct (PyDict.contains "ax" kwargs) eqn:Hax; [done|].
      destruct (PyDict.contains "shape" kwargs) eqn:Hshape; [done|].
      destruct (PyDict.contains "color" kwargs) eqn:Hcolor; [done|].
      cbn [orb] in H3. apply call_inv in H3 as ->.
      eexists. split; [reflexivity|]. right. split; [done|]. by exists kwargs.
    - exists []. split; [by rewrite app_nil_r|]. by left. }
  assert (∃ unit_line,
    f5 = ([opening] ++ reference) ++ unit_line
    ∧ ((has_line = false ∧ unit_line = [])
       ∨ (has_line = true
          ∧ unit_line
            = [if has_axline then Axline
               else Warn "Upgrade to matplotlib >= 3.3.0 to draw unit line"])))
    as (unit_line & -> & Hline).
  { clear -H5. apply when_inv in H5 as [[-> H5]|[-> ->]].
    - destruct has_axline; cbn [negb] in H5; apply call_inv in H5 as ->;
        eexists; (split; [reflexivity|]); by right.
    - exists []. split; [by rewrite app_nil_r|]. by left. }
  assert (f7 = (([opening] ++ reference) ++ unit_line
                ++ flat_map
                     (λ x, [Contour x.1 x.2.2; SetLabel x.2.1]
                           ++ (if add then [PlotMarginal AxMargX x.2.2;
                                            PlotMarginal AxMargY x.2.2]
                               else []))
                     (zip cmaps (PyDict.items ds)))
               ++ (if add then
                     [SetTitle AxMargX (VStr ""); SetXlabel AxMargX "";
                      SetYlabel AxMargX ""; SetTitle AxMargY (VStr "");
                      SetXlabel AxMargY ""; SetYlabel AxMargY "";
                      SetXticklabels AxMargY; SetYticklabels AxMargX]
                   else [])) as ->.
  { clear -H7. destruct add; cbn [when] in H7.
    - repeat draw_step. by rewrite <- !app_assoc.
    - draw_step. by rewrite <- !app_assoc, !app_nil_r. }
  eexists opening, reference, unit_line, _.
  split; [exact Hopening|].
  split; [destruct Href as [[-> ->]|[-> ?]]; [by left | by right]|].
  split; [destruct Hline as [[-> ->]|[-> ?]]; [by left | by right]|].
  split; [exact Hall|].
  split.
  { unfold drawn. by rewrite apply_plot_parameters_out. }
  clear -H. repeat draw_step. cbn [app]. by rewrite <- !app_assoc.
Qed.

End RenderingShape.

Section RenderingCalls.
Context `{RT : Runtime}.
Implicit Types (fig : Figure) (pp gp : Dict) (ds : PyDict.t DataArray).

(** The kinds of call [_apply_plot_parameters_to_axis] makes. *)
Lemma axis_calls_kinds ax pp gp (use_suptitle : bool) out c :
  drawn (_apply_plot_parameters_to_axis ax pp gp use_suptitle) = inr out →
  c ∈ out →
  let title := PyDict.get_or "title" pp
                 (VStr (_generate_title_from_global_parameters gp)) in
  c = Despine ax
  ∨ (∃ v, c = SetXlim ax 0 v)
  ∨ (∃ v, c = SetYlim ax 0 v)
  ∨ (use_suptitle = true ∧ (c = Suptitle title ∨ c = SetTitle ax (VStr "")))
  ∨ (use_suptitle = false ∧ c = SetTitle ax title).
Proof.
  intros Hout Hin title. unfold drawn in Hout.
  rewrite apply_plot_parameters_out in Hout. cbn [app] in Hout.
  injection Hout as <-. rewrite !elem_of_app in Hin.
  destruct Hin as [Hin|[Hin|[Hin|Hin]]].
  - destruct (truthy _); [|by apply elem_of_nil in Hin].
    apply list_elem_of_singleton in Hin. by left.
  - destruct (PyDict.get "x_max" pp) as [x|]; [|by apply elem_of_nil in Hin].
    destruct (truthy x); [|by apply elem_of_nil in Hin].
    apply list_elem_of_singleton in Hin. right. left. by exists x.
  - destruct (PyDict.get "y_max" pp) as [y|]; [|by apply elem_of_nil in Hin].
    destruct (truthy y); [|by apply elem_of_nil in Hin].
    apply list_elem_of_singleton in Hin. do 2 right. left. by exists y.
  - cbv zeta in Hin. fold title in Hin. destruct use_suptitle.
    + do 3 right. left. split; [done|].
      apply elem_of_cons in Hin as [->|Hin]; [by left|].
      apply list_elem_of_singleton in Hin. by right.
    + do 4 right. apply list_elem_of_singleton in Hin. done.
Qed.

(** The title calls [_apply_plot_parameters_to_axis] makes. *)
Lemma axis_calls_title ax pp gp (use_suptitle : bool) out :
  drawn (_apply_plot_parameters_to_axis ax pp gp use_suptitle) = inr out →
  let title := PyDict.get_or "title" pp
                 (VStr (_generate_title_from_global_parameters gp)) in
  if use_suptitle then Suptitle title ∈ out ∧ SetTitle ax (VStr "") ∈ out
  else SetTitle ax title ∈ out.
Proof.
  intros Hout title. unfold drawn in Hout.
  rewrite apply_plot_parameters_out in Hout. cbn [app] in Hout.
  injection Hout as <-. destruct use_suptitle; rewrite !elem_of_app.
  - split; do 3 right; cbv zeta; fold title.
    + apply elem_of_cons. by left.
    + apply elem_of_cons. right. by apply list_elem_of_singleton.
  - do 3 right. by apply list_elem_of_singleton.
Qed.

(** Every call of a returned figure, by the statement that made it. *)
Lemma scales_dist_2d_calls ds pp gp fig c :
  _scales_dist_2d ds pp gp = inr fig → c ∈ fig →
  let add := truthy (PyDict.get_or "add_marginal_distributions" pp
                       (VBool false)) in
  let annotations := PyDict.get_or "annotations" pp (VList []) in
  let title := PyDict.get_or "title" pp
                 (VStr (_generate_title_from_global_parameters gp)) in
  (add = true ∧ ∃ h, c = NewPlotGrid h)
  ∨ (add = false ∧ ∃ kw, c = Subplots kw)
  ∨ (py_in (C := TaskClass) "filamentarity_planarity_reference" annotations
     = inr true
     ∧ ∃ kwargs, reference_kwargs annotations = inr kwargs
                 ∧ c = FpReference kwargs)
  ∨ (py_in (C := TaskClass) "unit_line" annotations = inr true
     ∧ c = if has_axline then Axline
           else Warn "Upgrade to matplotlib >= 3.3.0 to draw unit line")
  ∨ (∃ x, x ∈ zip cmaps (PyDict.items ds)
          ∧ (c = Contour x.1 x.2.2 ∨ c = SetLabel x.2.1
             ∨ (add = true ∧ ∃ ax, ax ≠ AxJoint ∧ c = PlotMarginal ax x.2.2)))
  ∨ (add = true
     ∧ ∃ ax, ax ≠ AxJoint
             ∧ (c = SetTitle ax (VStr "") ∨ c = SetXlabel ax ""
                ∨ c = SetYlabel ax "" ∨ c = SetXticklabels ax
                ∨ c = SetYticklabels ax))
  ∨ c = Despine AxJoint
  ∨ (∃ v, c = SetXlim AxJoint 0 v)
  ∨ (∃ v, c = SetYlim AxJoint 0 v)
  ∨ (add = true ∧ (c = Suptitle title ∨ c = SetTitle AxJoint (VStr "")))
  ∨ (add = false ∧ c = SetTitle AxJoint title)
  ∨ c = Legend (PyDict.get_or "legend_loc" pp (VStr "best"))
  ∨ c = TightLayout.
Proof.
  intros Hfig Hin add annotations title.
  destruct (scales_dist_2d_shape ds pp gp fig Hfig)
    as (opening & reference & unit_line & out
        & Hopen & Href & Hline & _ & Hout & ->).
  fold add annotations in Hopen, Href, Hline, Hout, Hin.
  apply elem_of_cons in Hin as [->|Hin].
  { destruct add.
    - left. destruct Hopen as (h & -> & _). eauto.
    - right. left. destruct Hopen as (kw & _ & ->). eauto. }
  rewrite !elem_of_app in Hin.
  destruct Hin as [Hin|[Hin|[Hin|[Hin|[Hin|Hin]]]]].
  - do 2 right. left.
    destruct Href as [[_ ->]|(Hhas & kwargs & Hkw & _ & _ & _ & ->)];
      [by apply elem_of_nil in Hin|].
    apply list_elem_of_singleton in Hin. eauto.
  - do 3 right. left.
    destruct Hline as [[_ ->]|[Hhas ->]]; [by apply elem_of_nil in Hin|].
    apply list_elem_of_singleton in Hin. eauto.
  - do 4 right. left.
    apply list_elem_of_In, in_flat_map in Hin as (x & Hx & Hin).
    apply list_elem_of_In in Hx, Hin. exists x. split; [done|].
    apply elem_of_app in Hin as [Hin|Hin].
    + apply elem_of_cons in Hin as [->|Hin]; [by left|].
      apply list_elem_of_singleton in Hin. by right; left.
    + destruct add; [|by apply elem_of_nil in Hin].
      do 2 right. split; [done|].
      apply elem_of_cons in Hin as [->|Hin]; [by exists AxMargX|].
      apply list_elem_of_singleton in Hin. by exists AxMargY.
  - do 5 right. left. destruct add; [|by apply elem_of_nil in Hin].
    split; [done|].
    repeat (apply elem_of_cons in Hin as [->|Hin];
            [first [by exists AxMargX; split; [done|]; eauto 6
                   |by exists AxMargY; split; [done|]; eauto 6]|]).
    by apply elem_of_nil in Hin.
  - do 6 right.
    destruct (axis_calls_kinds AxJoint pp gp add out c Hout Hin)
      as [?|[?|[?|[?|?]]]]; eauto 10.
  - do 11 right.
    apply elem_of_cons in Hin as [->|Hin]; [by left|].
    apply list_elem_of_singleton in Hin. by right.
Qed.

End RenderingCalls.

(** ** What a rendered figure holds *)

(** Take apart a nest of disjunctions, conjunctions and existentials. *)
Ltac take_apart H :=
  lazymatch type of H with
  | _ ∨ _ =>
      let H1 := fresh "Hcase" in
      destruct H as [H1|H]; [take_apart H1 | take_apart H]
  | _ ∧ _ =>
      let H1 := fresh "Hcase" in
      let H2 := fresh "Hcase" in
      destruct H as [H1 H2]; take_apart H1; take_apart H2
  | ∃ _, _ =>
      let x := fresh "x" in
      destruct H as [x H]; take_apart H
  | _ => idtac
  end.

Section RenderingExtras.
Context `{RT : Runtime}.
Implicit Types (fig : Figure) (pp gp : Dict) (ds : PyDict.t DataArray).

(** X1.  A figure [_scales_dist_2d] returns ends with the legend call
    and then [tight_layout]; the legend location is the "legend_loc" of
    the plot parameters, "best" when the key is absent, and no other
    legend call is made. *)
Theorem figure_ends_with_legend ds pp gp fig :
  _scales_dist_2d ds pp gp = inr fig →
  (∃ body,
     fig = body ++ [Legend (PyDict.get_or "legend_loc" pp (VStr "best"));
                    TightLayout])
  ∧ (∀ loc, Legend loc ∈ fig →
       loc = PyDict.get_or "legend_loc" pp (VStr "best"))
  ∧ (PyDict.get "legend_loc" pp = None → Legend (VStr "best") ∈ fig).
Proof.
  intros Hfig.
  destruct (scales_dist_2d_shape ds pp gp fig Hfig)
    as (opening & reference & unit_line & out & _ & _ & _ & _ & _ & Heq).
  split; [|split].
  - eexists. rewrite Heq, !app_comm_cons, !app_assoc. reflexivity.
  - intros loc Hin.
    pose proof (scales_dist_2d_calls ds pp gp fig _ Hfig Hin) as Hc.
    cbv zeta in Hc. destruct has_axline; take_apart Hc; congruence.
  - intros Hnone. rewrite Heq. unfold PyDict.get_or. rewrite Hnone.
    apply elem_of_cons. right. rewrite !elem_of_app. do 5 right.
    apply elem_of_cons. by left.
Qed.

(** Solve a goal from the classification of a call of a figure. *)
Local Ltac by_calls Hfig Hin :=
  let Hc := fresh "Hc" in
  pose proof (scales_dist_2d_calls _ _ _ _ _ Hfig Hin) as Hc;
  cbv zeta in Hc;
  repeat match goal with x := _ |- _ => subst x end;
  destruct has_axline eqn:?; cbv iota in Hc; take_apart Hc;
  first [congruence | by repeat split; congruence].

(** X2.  The unit line: a returned figure holds the [axline] call
    exactly when "unit_line" is in the annotations and the axes have
    [axline]; when they lack it, the request only warns. *)
Theorem unit_line_drawn_or_warned ds pp gp fig :
  _scales_dist_2d ds pp gp = inr fig →
  let annotations := PyDict.get_or "annotations" pp (VList []) in
  (Axline ∈ fig ↔
     py_in (C := TaskClass) "unit_line" annotations = inr true
     ∧ has_axline = true)
  ∧ (∀ msg, Warn msg ∈ fig ↔
       py_in (C := TaskClass) "unit_line" annotations = inr true
       ∧ has_axline = false
       ∧ msg = "Upgrade to matplotlib >= 3.3.0 to draw unit line").
Proof.
  intros Hfig annotations.
  destruct (scales_dist_2d_shape ds pp gp fig Hfig)
    as (opening & reference & unit_line & out & _ & _ & Hline & _ & _ & Heq).
  fold annotations in Hline.
  assert (∀ c, c ∈ unit_line → c ∈ fig) as Hsub.
  { intros c Hc. rewrite Heq. apply elem_of_cons. right.
    rewrite !elem_of_app. by right; left. }
  split; [|intros msg]; (split; [intros Hin; by_calls Hfig Hin|]).
  - intros [Hu Hax]. apply Hsub.
    destruct Hline as [[Hno _]|[_ ->]]; [congruence|].
    rewrite Hax. by apply list_elem_of_singleton.
  - intros (Hu & Hax & ->). apply Hsub.
    destruct Hline as [[Hno _]|[_ ->]]; [congruence|].
    rewrite Hax. by apply list_elem_of_singleton.
Qed.

(** X3.  The title: without marginal distributions the title is set on
    the joint axes; with them it is the figure's suptitle and the joint
    axes get an empty title.  The title is the "title" of the plot
    parameters, and the one generated from the global parameters when
    the key is absent. *)
Theorem title_placement ds pp gp fig :
  _scales_dist_2d ds pp gp = inr fig →
  let add := truthy (PyDict.get_or "add_marginal_distributions" pp
                       (VBool false)) in
  let title := match PyDict.get "title" pp with
               | Some t => t
               | None => VStr (_generate_title_from_global_parameters gp)
               end in
  (∀ t, Suptitle t ∈ fig ↔ add = true ∧ t = title)
  ∧ (∀ t, SetTitle AxJoint t ∈ fig ↔
       (add = false ∧ t = title) ∨ (add = true ∧ t = VStr "")).
Proof.
  intros Hfig add title.
  destruct (scales_dist_2d_shape ds pp gp fig Hfig)
    as (opening & reference & unit_line & out & _ & _ & _ & _ & Hout & Heq).
  fold add in Hout.
  assert (∀ c, c ∈ out → c ∈ fig) as Hsub.
  { intros c Hc. rewrite Heq. apply elem_of_cons. right.
    rewrite !elem_of_app. by do 4 right; left. }
  pose proof (axis_calls_title AxJoint pp gp add out Hout) as Ht.
  cbv zeta in Ht.
  change (PyDict.get_or "title" pp
            (VStr (_generate_title_from_global_parameters gp)))
    with title in Ht.
  split; intros t; (split; [intros Hin|]).
  - pose proof (scales_dist_2d_calls _ _ _ _ _ Hfig Hin) as Hc.
    cbv zeta in Hc.
    change (PyDict.get_or "title" pp
              (VStr (_generate_title_from_global_parameters gp)))
      with title in Hc.
    fold add in Hc.
    destruct has_axline; take_apart Hc; first [congruence | split; congruence].
  - intros [Hadd ->]. rewrite Hadd in Ht. apply Hsub, Ht.
  - pose proof (scales_dist_2d_calls _ _ _ _ _ Hfig Hin) as Hc.
    cbv zeta in Hc.
    change (PyDict.get_or "title" pp
              (VStr (_generate_title_from_global_parameters gp)))
      with title in Hc.
    fold add in Hc.
    destruct has_axline; take_apart Hc;
      first [congruence | left; split; congruence | right; split; congruence].
  - intros [[Hadd ->]|[Hadd ->]]; rewrite Hadd in Ht; apply Hsub, Ht.
Qed.

(** X4.  Marginal distributions: with them on, each plotted array is
    also drawn on the two marginal axes; with them off, no marginal plot
    is made.  A marginal plot is only ever made of one of the first four
    arrays. *)
Theorem marginals_follow_the_flag ds pp gp fig :
  _scales_dist_2d ds pp gp = inr fig →
  let add := truthy (PyDict.get_or "add_marginal_distributions" pp
                       (VBool false)) in
  ∀ ax da,
    PlotMarginal ax da ∈ fig ↔
      add = true ∧ ax ≠ AxJoint
      ∧ ∃ task_name, (task_name, da) ∈ take 4 (PyDict.items ds).
Proof.
  intros Hfig add ax da.
  destruct (scales_dist_2d_shape ds pp gp fig Hfig)
    as (opening & reference & unit_line & out & _ & _ & _ & _ & _ & Heq).
  fold add in Heq. split.
  - intros Hin.
    pose proof (scales_dist_2d_calls _ _ _ _ _ Hfig Hin) as Hc.
    cbv zeta in Hc. fold add in Hc.
    destruct has_axline; cbv iota in Hc; take_apart Hc; try congruence.
    all: match goal with
         | Hx : ?x ∈ zip cmaps _, Heq' : PlotMarginal _ _ = PlotMarginal _ _
           |- _ =>
             destruct x as [cmap [task_name da']]; cbn [fst snd] in Heq';
             injection Heq' as -> ->; split; [done|]; split; [done|];
             rewrite zip_cmaps_take in Hx;
             apply elem_of_zip_r in Hx; by exists task_name
         end.
  - intros (Hadd & Hax & task_name & Hda). rewrite Heq.
    apply elem_of_cons. right. rewrite !elem_of_app. do 2 right. left.
    rewrite Hadd.
    destruct (list_elem_of_lookup_1 _ _ Hda) as [i Hi].
    assert (∃ cmap, zip cmaps (PyDict.items ds) !! i = Some (cmap, (task_name, da)))
      as [cmap Hz].
    { apply lookup_take_Some in Hi as [Hi Hlt].
      destruct (lookup_lt_is_Some_2 cmaps i) as [cmap Hc]; [done|].
      exists cmap. rewrite lookup_zip_with, Hc, Hi. done. }
    apply list_elem_of_In, in_flat_map. exists (cmap, (task_name, da)).
    split; [by eapply list_elem_of_In, list_elem_of_lookup_2|].
    apply list_elem_of_In. cbn [fst snd]. rewrite elem_of_app. right.
    destruct ax; [done| |]; [apply elem_of_cons; by left|].
    apply elem_of_cons. right. by apply list_elem_of_singleton.
Qed.

(** X5.  The reference annotation is drawn exactly when its name is in
    the annotations, with the keyword arguments [reference_kwargs] gives;
    these never hold "ax", "shape" or "color". *)
Theorem reference_drawn_with_kwargs ds pp gp fig :
  _scales_dist_2d ds pp gp = inr fig →
  let annotations := PyDict.get_or "annotations" pp (VList []) in
  ∀ kwargs,
    FpReference kwargs ∈ fig ↔
      py_in (C := TaskClass) "filamentarity_planarity_reference" annotations
      = inr true
      ∧ reference_kwargs annotations = inr kwargs
      ∧ PyDict.contains "ax" kwargs = false
      ∧ PyDict.contains "shape" kwargs = false
      ∧ PyDict.contains "color" kwargs = false.
Proof.
  intros Hfig annotations kwargs.
  destruct (scales_dist_2d_shape ds pp gp fig Hfig)
    as (opening & reference & unit_line & out & _ & Href & _ & _ & _ & Heq).
  fold annotations in Href.
  assert (∀ c, c ∈ reference → c ∈ fig) as Hsub.
  { intros c Hc. rewrite Heq. apply elem_of_cons. right.
    rewrite !elem_of_app. by left. }
  destruct Href as [[Hno ->]|(Hhas & kw & Hkw & Hax & Hshape & Hcolor & ->)].
  - split; [|intros [? _]; congruence].
    intros Hin. pose proof (scales_dist_2d_calls _ _ _ _ _ Hfig Hin) as Hc.
    cbv zeta in Hc. fold annotations in Hc.
    destruct has_axline; cbv iota in Hc; take_apart Hc; congruence.
  - split.
    + intros Hin. pose proof (scales_dist_2d_calls _ _ _ _ _ Hfig Hin) as Hc.
      cbv zeta in Hc. fold annotations in Hc.
      destruct has_axline; cbv iota in Hc; take_apart Hc; try congruence.
      all: match goal with
           | H : FpReference _ = FpReference _ |- _ => injection H as ->
           end.
      all: assert (x = kw) as -> by congruence; done.
    + intros (_ & Hk & _). assert (kwargs = kw) as -> by congruence.
      apply Hsub. by apply list_elem_of_singleton.
Qed.

(** X6.  An array among the first four whose contour set has fewer than
    three collections makes the rendering raise: no figure is returned. *)
Theorem too_few_contour_levels_raise ds pp gp task_name da :
  (task_name, da) ∈ take 4 (PyDict.items ds) →
  (n_collections da ≤ 2)%nat →
  ∃ e, _scales_dist_2d ds pp gp = inl e.
Proof.
  intros Hda Hn.
  destruct (_scales_dist_2d ds pp gp) as [e|fig] eqn:Hfig; [by exists e|].
  destruct (scales_dist_2d_shape ds pp gp fig Hfig)
    as (opening & reference & unit_line & out & _ & _ & _ & Hall & _).
  destruct (list_elem_of_lookup_1 _ _ Hda) as [i Hi].
  apply lookup_take_Some in Hi as [Hi Hlt].
  destruct (lookup_lt_is_Some_2 cmaps i) as [cmap Hc]; [done|].
  assert (zip cmaps (PyDict.items ds) !! i = Some (cmap, (task_name, da)))
    as Hz by (by rewrite lookup_zip_with, Hc, Hi).
  rewrite Forall_lookup in Hall. specialize (Hall _ _ Hz).
  cbn [fst snd] in Hall. lia.
Qed.

End RenderingExtras.

(** ** Reading the plot parameters *)

Section PlotParameterExtras.
Context `{RT : Runtime}.
Implicit Types (fig : Figure) (pp gp : Dict) (ds : PyDict.t DataArray).

Lemma set_fresh {V} (k : string) (v : V) (d : PyDict.t V) :
  k ∉ d.*1 → PyDict.set k v d = d ++ [(k, v)].
Proof.
  induction d as [|[k0 v0] d IH]; [done|]. cbn [PyDict.set fmap list_fmap fst].
  intros [Hne Hk]%not_elem_of_cons.
  destruct (String.eqb_spec k k0); [done|]. cbn. f_equal. by apply IH.
Qed.

Lemma update_fresh {V} (d e : PyDict.t V) :
  NoDup (d.*1 ++ e.*1) → PyDict.update d e = d ++ e.
Proof.
  unfold PyDict.update. revert d. induction e as [|[k v] e IH]; intros d Hnd.
  - by rewrite app_nil_r.
  - cbn [fold_left fst snd]. rewrite set_fresh.
    + rewrite IH; [by rewrite <- app_assoc|].
      rewrite fmap_app. cbn. by rewrite <- app_assoc.
    + apply NoDup_app in Hnd as (_ & Hdis & _). intros Hin.
      apply (Hdis k Hin). cbn. apply elem_of_cons. by left.
Qed.

Lemma of_pairs_wf {V} (d : PyDict.t V) : PyDict.wf d → PyDict.of_pairs d = d.
Proof. intros Hwf. unfold PyDict.of_pairs. by rewrite update_fresh. Qed.

(** X7.  [_scales_dist_2d] reads eight keys of the plot parameters and
    nothing else: two plot parameter dictionaries that agree on them, in
    whatever order and with whatever other keys, give the same result. *)
Theorem plot_parameters_keys_read ds pp pp' gp :
  (∀ k, k ∈ ["add_marginal_distributions"; "fig_params"; "annotations";
              "despine"; "x_max"; "y_max"; "title"; "legend_loc"] →
        PyDict.get k pp' = PyDict.get k pp) →
  _scales_dist_2d ds pp' gp = _scales_dist_2d ds pp gp.
Proof.
  intros H.
  assert (PyDict.get "add_marginal_distributions" pp'
          = PyDict.get "add_marginal_distributions" pp) as H1
    by (apply H; set_solver).
  assert (PyDict.get "fig_params" pp' = PyDict.get "fig_params" pp) as H2
    by (apply H; set_solver).
  assert (PyDict.get "annotations" pp' = PyDict.get "annotations" pp) as H3
    by (apply H; set_solver).
  assert (PyDict.get "despine" pp' = PyDict.get "despine" pp) as H4
    by (apply H; set_solver).
  assert (PyDict.get "x_max" pp' = PyDict.get "x_max" pp) as H5
    by (apply H; set_solver).
  assert (PyDict.get "y_max" pp' = PyDict.get "y_max" pp) as H6
    by (apply H; set_solver).
  assert (PyDict.get "title" pp' = PyDict.get "title" pp) as H7
    by (apply H; set_solver).
  assert (PyDict.get "legend_loc" pp' = PyDict.get "legend_loc" pp) as H8
    by (apply H; set_solver).
  unfold _scales_dist_2d, _apply_plot_parameters_to_axis, PyDict.get_or,
    py_getitem_str.
  by rewrite H1, H2, H3, H4, H5, H6, H7, H8.
Qed.

(** X8.  Without marginal distributions the figure is opened by
    [plt.subplots] with the whole of "fig_params" as keyword arguments,
    and "fig_params" that is not a mapping raises [TypeError] before
    anything is drawn. *)
Theorem subplots_takes_fig_params ds pp gp :
  truthy (PyDict.get_or "add_marginal_distributions" pp (VBool false))
  = false →
  (∀ fig, _scales_dist_2d ds pp gp = inr fig →
     ∃ kw rest,
       PyDict.get_or "fig_params" pp (VDict []) = VDict kw
       ∧ fig = Subplots kw :: rest)
  ∧ ((∀ kw, PyDict.get_or "fig_params" pp (VDict []) ≠ VDict kw) →
     _scales_dist_2d ds pp gp = inl TypeError).
Proof.
  intros Hadd. split.
  - intros fig Hfig.
    destruct (scales_dist_2d_shape ds pp gp fig Hfig)
      as (opening & reference & unit_line & out & Hopen & _ & _ & _ & _ & ->).
    rewrite Hadd in Hopen. destruct Hopen as (kw & Hkw & ->).
    exists kw. eexists. split; [|reflexivity].
    destruct (PyDict.get_or "fig_params" pp (VDict [])); try done.
    by injection Hkw as ->.
  - intros Hno. unfold _scales_dist_2d. rewrite Hadd.
    destruct (PyDict.get_or "fig_params" pp (VDict [])) as [| | | | | |kw];
      try reflexivity.
    by destruct (Hno kw).
Qed.

(** X9.  With marginal distributions the figure is opened by a
    [PlotGrid] that gets of "fig_params" only the height, the entry of
    "figsize" at index 1: the grid has no height when "figsize" is
    absent, and a "figsize" list with fewer than two entries raises
    [IndexError] before anything is drawn. *)
Theorem plot_grid_takes_height_only ds pp gp (d : Dict) :
  truthy (PyDict.get_or "add_marginal_distributions" pp (VBool false))
  = true →
  PyDict.get_or "fig_params" pp (VDict []) = VDict d →
  (∀ fig, _scales_dist_2d ds pp gp = inr fig →
     ∃ h rest,
       fig = NewPlotGrid h :: rest
       ∧ (PyDict.get "figsize" d = None → h = None)
       ∧ (∀ l, PyDict.get "figsize" d = Some (VList l) → h = l !! 1%nat))
  ∧ (∀ l, PyDict.get "figsize" d = Some (VList l) → (length l < 2)%nat →
       _scales_dist_2d ds pp gp = inl IndexError).
Proof.
  intros Hadd Hfp. split.
  - intros fig Hfig.
    destruct (scales_dist_2d_shape ds pp gp fig Hfig)
      as (opening & reference & unit_line & out & Hopen & _ & _ & _ & _ & ->).
    rewrite Hadd, Hfp in Hopen. destruct Hopen as (h & -> & Hh).
    exists h. eexists. split; [reflexivity|].
    cbn [py_in py_getitem_str] in Hh.
    unfold PyDict.contains, mret, res_ret, mthrow, res_throw in Hh.
    split.
    + intros Hnone. rewrite Hnone in Hh.
      by destruct Hh as [[_ ->]|[[=] _]].
    + intros l Hl. rewrite Hl in Hh.
      destruct Hh as [[[=] _]|(_ & figsize & hv & [= <-] & Hhv & ->)].
      cbn [py_getitem_nat] in Hhv.
      unfold mret, res_ret, mthrow, res_throw in Hhv.
      destruct (l !! 1%nat); [by injection Hhv as ->|done].
  - intros l Hl Hlen. unfold _scales_dist_2d. rewrite Hadd, Hfp.
    cbn [py_in py_getitem_str]. unfold PyDict.contains.
    rewrite Hl.
    destruct l as [|a [|b l]]; [reflexivity|reflexivity|cbn in Hlen; lia].
Qed.

(** X10.  The keyword arguments of the reference annotation are read
    under a bare [except]: annotations given as a list or a string, and
    an entry that is [None] or an integer, give no keyword arguments where
    indexing or [dict] raise, and an entry that is a dictionary is
    passed on as it is. *)
Theorem reference_kwargs_swallows_errors :
  (∀ l, reference_kwargs (VList l) = inr [])
  ∧ (∀ s, reference_kwargs (VStr s) = inr [])
  ∧ (∀ d, PyDict.get "filamentarity_planarity_reference" d = Some VNone →
       reference_kwargs (VDict d) = inr [])
  ∧ (∀ d z, PyDict.get "filamentarity_planarity_reference" d = Some (VInt z) →
       reference_kwargs (VDict d) = inr [])
  ∧ (∀ d kw,
       PyDict.get "filamentarity_planarity_reference" d = Some (VDict kw) →
       PyDict.wf kw →
       reference_kwargs (VDict d) = inr kw).
Proof.
  repeat split; try done.
  - intros d Hd. unfold reference_kwargs. cbn [py_getitem_str]. by rewrite Hd.
  - intros d z Hd. unfold reference_kwargs. cbn [py_getitem_str]. by rewrite Hd.
  - intros d kw Hd Hwf. unfold reference_kwargs. cbn [py_getitem_str].
    rewrite Hd. unfold mret, res_ret, mbind, res_bind.
    rewrite (py_pairs_dict (C := TaskClass)), str_keyed_dict.
    by rewrite of_pairs_wf.
Qed.

End PlotParameterExtras.

(** ** Dependencies and running *)

Section TaskExtras.
Context `{RT : Runtime}.
Implicit Types (self : ComparisonPlot) (w : World).

(** The loop of [requires] on parameter sets that all merge and
    construct: one task per set, appended in order. *)
Lemma requires_loop_builds (c : TaskClass) (g : Dict)
    (l : list (string * PyVal)) (ts acc : PyDict.t Task) w :
  Forall2 (λ set task,
             task.1 = set.1
             ∧ ∃ merged, merge_parameters g set.2 = inr merged
                         ∧ construct c merged = inr task.2) l ts →
  NoDup (acc.*1 ++ l.*1) →
  for_items l
    (λ '(task_name, parameter_set) tasks,
       task_parameters ← pure (merge_parameters g parameter_set);
       t ← pure (construct c task_parameters);
       mret (PyDict.set task_name t tasks)) acc w
  = (inr (acc ++ ts), w).
Proof.
  intros Hall. revert acc.
  induction Hall as [|[label ps] [label' t] l ts (Hl & merged & Hm & Hc) _ IH];
    intros acc Hnd.
  - cbn [for_items]. by rewrite app_nil_r.
  - cbn [fst snd] in Hl, Hm, Hc. subst label'. cbn [for_items].
    unfold mbind at 1, M_bind at 1. unfold mbind at 1, M_bind at 1, pure at 1.
    rewrite Hm. unfold mbind at 1, M_bind at 1, pure at 1. rewrite Hc.
    unfold mret at 1, M_ret at 1.
    cbn [fmap list_fmap fst] in Hnd.
    rewrite set_fresh.
    + rewrite IH; [by rewrite <- app_assoc|].
      rewrite fmap_app. cbn. by rewrite <- app_assoc.
    + apply NoDup_app in Hnd as (_ & Hdis & _). intros Hin.
      apply (Hdis label Hin). apply elem_of_cons. by left.
Qed.

(** X11.  When the class is found and every parameter set merges with
    the global parameters and constructs, [requires] returns one task
    per parameter set, under the set's label and in the order of the
    parameter sets, each the class called with the global parameters
    updated by the set. *)
Theorem requires_builds_one_task_per_set self w (c : TaskClass)
    (tasks : PyDict.t Task) :
  _get_task_class self w = (inr c, w) →
  PyDict.wf (parameter_sets self) →
  Forall2 (λ set task,
             task.1 = set.1
             ∧ ∃ merged,
                 merge_parameters (global_parameters self) set.2 = inr merged
                 ∧ construct c merged = inr task.2)
          (parameter_sets self) tasks →
  requires self w = (inr tasks, w).
Proof.
  intros Hc Hwf Hall. unfold requires. unfold mbind at 1, M_bind at 1.
  rewrite Hc. unfold PyDict.items, PyDict.empty.
  by rewrite (requires_loop_builds c _ _ tasks [] w Hall).
Qed.

(** The loop of [requires] stops at the first parameter set that fails
    to merge or to construct. *)
Lemma requires_loop_fails (c : TaskClass) (g : Dict)
    (before after : list (string * PyVal)) label ps (e : Err)
    (acc : PyDict.t Task) w :
  Forall (λ set, ∃ merged t, merge_parameters g set.2 = inr merged
                             ∧ construct c merged = inr t) before →
  (merge_parameters g ps = inl e
   ∨ ∃ merged, merge_parameters g ps = inr merged
               ∧ construct c merged = inl e) →
  for_items (before ++ (label, ps) :: after)
    (λ '(task_name, parameter_set) tasks,
       task_parameters ← pure (merge_parameters g parameter_set);
       t ← pure (construct c task_parameters);
       mret (PyDict.set task_name t tasks)) acc w
  = (inl e, w).
Proof.
  intros Hall Hfail. revert acc.
  induction Hall as [|[label0 ps0] before (merged & t & Hm & Hc) _ IH];
    intros acc.
  - cbn [app for_items].
    unfold mbind at 1, M_bind at 1. unfold mbind at 1, M_bind at 1, pure at 1.
    destruct Hfail as [Hm|(merged & Hm & Hc)]; rewrite Hm; [done|].
    unfold mbind at 1, M_bind at 1, pure at 1. by rewrite Hc.
  - cbn [fst snd] in Hm, Hc. cbn [app for_items].
    unfold mbind at 1, M_bind at 1. unfold mbind at 1, M_bind at 1, pure at 1.
    rewrite Hm. unfold mbind at 1, M_bind at 1, pure at 1. rewrite Hc.
    unfold mret at 1, M_ret at 1. apply IH.
Qed.

(** X12.  [requires] raises the error of the first parameter set, in
    the order of the parameter sets, that fails to merge with the global
    parameters or whose task fails to construct; the sets after it are
    not looked at. *)
Theorem requires_raises_first_failure self w (c : TaskClass)
    (before after : list (string * PyVal)) label ps (e : Err) :
  _get_task_class self w = (inr c, w) →
  parameter_sets self = before ++ (label, ps) :: after →
  Forall (λ set, ∃ merged t,
            merge_parameters (global_parameters self) set.2 = inr merged
            ∧ construct c merged = inr t) before →
  (merge_parameters (global_parameters self) ps = inl e
   ∨ ∃ merged, merge_parameters (global_parameters self) ps = inr merged
               ∧ construct c merged = inl e) →
  requires self w = (inl e, w).
Proof.
  intros Hc Hsets Hall Hfail. unfold requires. unfold mbind at 1, M_bind at 1.
  rewrite Hc, Hsets. unfold PyDict.items.
  by apply requires_loop_fails.
Qed.

Lemma set_keys {V} (k : string) (v : V) (d : PyDict.t V) :
  (PyDict.set k v d).*1 = if decide (k ∈ d.*1) then d.*1 else d.*1 ++ [k].
Proof.
  induction d as [|[k0 v0] d IH]; [done|].
  cbn [PyDict.set fmap list_fmap fst].
  destruct (String.eqb_spec k k0) as [->|Hne].
  - rewrite decide_True; [done|]. apply elem_of_cons. by left.
  - cbn [fmap list_fmap fst]. change (list_fmap _ _ fst ?l) with (l.*1).
    rewrite IH. destruct (decide (k ∈ d.*1)) as [Hin|Hin].
    + rewrite decide_True; [done|]. apply elem_of_cons. by right.
    + rewrite decide_False; [done|]. by intros [?|?]%elem_of_cons.
Qed.

Lemma set_wf {V} (k : string) (v : V) (d : PyDict.t V) :
  PyDict.wf d → PyDict.wf (PyDict.set k v d).
Proof.
  unfold PyDict.wf. intros Hwf. rewrite set_keys. case_decide; [done|].
  apply NoDup_app. split; [done|]. split; [|apply NoDup_singleton].
  intros x Hx ->%list_elem_of_singleton. done.
Qed.

(** A loop that only sets keys keeps the labels distinct. *)
Lemma for_items_set_wf {A V} (l : list A) (body : A → PyDict.t V → M (PyDict.t V))
    (acc r : PyDict.t V) w w' :
  (∀ x d w0 d' w1, body x d w0 = (inr d', w1) → PyDict.wf d → PyDict.wf d') →
  PyDict.wf acc →
  for_items l body acc w = (inr r, w') → PyDict.wf r.
Proof.
  intros Hbody. revert acc w. induction l as [|x l IH]; intros acc w Hacc.
  - cbn [for_items]. unfold mret, M_ret. by intros [= <- _].
  - cbn [for_items]. unfold mbind at 1, M_bind at 1.
    destruct (body x acc w) as [[e|d] w1] eqn:Hb; [done|].
    apply IH. by eapply Hbody.
Qed.

(** The dependency map [requires] returns never holds a label twice. *)
Lemma requires_labels_distinct self w (tasks : PyDict.t Task) w' :
  requires self w = (inr tasks, w') → PyDict.wf tasks.
Proof.
  unfold requires. unfold mbind at 1, M_bind at 1.
  destruct (_get_task_class self w) as [[e|c] w1]; [done|].
  apply for_items_set_wf; [|apply NoDup_nil_2].
  intros [task_name parameter_set] d w0 d' w2 Hb Hd.
  unfold mbind at 1, M_bind at 1, pure at 1 in Hb.
  destruct (merge_parameters _ _) as [e|m]; [done|].
  unfold mbind at 1, M_bind at 1, pure at 1 in Hb.
  destruct (construct c m) as [e|t]; [done|].
  unfold mret, M_ret in Hb. injection Hb as <- _. by apply set_wf.
Qed.

(** The loop of [run] on inputs that all open: one array per input,
    tagged with its label, appended in order. *)
Lemma open_loop_opens (inputs : list (string * string))
    (datasets acc : PyDict.t DataArray) w :
  Forall2 (λ inp d,
             d.1 = inp.1
             ∧ ∃ da, w !! inp.2 = Some (DataFile da)
                     ∧ d.2 = set_task_name inp.1 da) inputs datasets →
  NoDup (acc.*1 ++ inputs.*1) →
  for_items inputs
    (λ '(task_name, task_input) datasets,
       ds ← open_target task_input;
       let ds := set_task_name task_name ds in
       mret (PyDict.set task_name ds datasets)) acc w
  = (inr (acc ++ datasets), w).
Proof.
  intros Hall. revert acc.
  induction Hall as [|[label path] [label' d] l ds (Hl & da & Hda & Hd) _ IH];
    intros acc Hnd.
  - cbn [for_items]. by rewrite app_nil_r.
  - cbn [fst snd] in Hl, Hda, Hd. subst label' d. cbn [for_items].
    unfold mbind at 1, M_bind at 1. unfold mbind at 1, M_bind at 1.
    unfold open_target at 1. rewrite Hda. unfold mret at 1, M_ret at 1.
    cbn [fmap list_fmap fst] in Hnd.
    rewrite set_fresh.
    + rewrite IH; [by rewrite <- app_assoc|].
      rewrite fmap_app. cbn. by rewrite <- app_assoc.
    + apply NoDup_app in Hnd as (_ & Hdis & _). intros Hin.
      apply (Hdis label Hin). apply elem_of_cons. by left.
Qed.

(** What the loop of [run] opened, when it returns. *)
Lemma open_loop_inv (inputs : list (string * string))
    (acc r : PyDict.t DataArray) w w' :
  NoDup (acc.*1 ++ inputs.*1) →
  for_items inputs
    (λ '(task_name, task_input) datasets,
       ds ← open_target task_input;
       let ds := set_task_name task_name ds in
       mret (PyDict.set task_name ds datasets)) acc w
  = (inr r, w') →
  ∃ datasets,
    r = acc ++ datasets
    ∧ Forall2 (λ inp d,
                 d.1 = inp.1
                 ∧ ∃ da, w !! inp.2 = Some (DataFile da)
                         ∧ d.2 = set_task_name inp.1 da) inputs datasets.
Proof.
  revert acc. induction inputs as [|[label path] l IH]; intros acc Hnd.
  - cbn [for_items]. unfold mret, M_ret. intros [= <- _].
    exists []. by rewrite app_nil_r.
  - cbn [for_items]. unfold mbind at 1, M_bind at 1.
    unfold mbind at 1, M_bind at 1. unfold open_target at 1.
    destruct (w !! path) as [[da| |]|] eqn:Hpath; try done.
    unfold mret at 1, M_ret at 1.
    cbn [fmap list_fmap fst] in Hnd.
    rewrite set_fresh.
    + intros Hloop. apply IH in Hloop as (ds & -> & Hall).
      * exists ((label, set_task_name label da) :: ds).
        split; [by rewrite <- app_assoc|].
        constructor; [|done]. split; [done|]. by exists da.
      * rewrite fmap_app. cbn. by rewrite <- app_assoc.
    + apply NoDup_app in Hnd as (_ & Hdis & _). intros Hin.
      apply (Hdis label Hin). apply elem_of_cons. by left.
Qed.

(** The loop of [run] stops at the first input that does not open. *)
Lemma open_loop_fails (before after : list (string * string)) label path
    (acc : PyDict.t DataArray) w :
  Forall (λ inp, ∃ da, w !! inp.2 = Some (DataFile da)) before →
  (∀ da, w !! path ≠ Some (DataFile da)) →
  for_items (before ++ (label, path) :: after)
    (λ '(task_name, task_input) datasets,
       ds ← open_target task_input;
       let ds := set_task_name task_name ds in
       mret (PyDict.set task_name ds datasets)) acc w
  = (inl (OSError path), w).
Proof.
  intros Hall Hpath. revert acc.
  induction Hall as [|[label0 path0] before (da & Hda) _ IH]; intros acc.
  - cbn [app for_items]. unfold mbind at 1, M_bind at 1.
    unfold mbind at 1, M_bind at 1. unfold open_target at 1.
    destruct (w !! path) as [[da| |]|]; try done. by destruct (Hpath da).
  - cbn [fst snd] in Hda. cbn [app for_items].
    unfold mbind at 1, M_bind at 1. unfold mbind at 1, M_bind at 1.
    unfold open_target at 1. rewrite Hda. unfold mret at 1, M_ret at 1.
    apply IH.
Qed.

(** [input] maps the tasks [requires] returns to their outputs. *)
Lemma input_of_requires self w (r : Res Err (PyDict.t Task)) :
  requires self w = (r, w) →
  input self w
  = (match r with
     | inl e => inl e
     | inr tasks => inr (map (λ kv, (kv.1, task_output kv.2)) tasks)
     end, w).
Proof.
  intros Hreq. unfold input. unfold mbind, M_bind. rewrite Hreq.
  by destruct r.
Qed.

(** [run], once the class is found to be the supported one, up to the
    opening of the inputs. *)
Lemma run_supported self w :
  _get_task_class self w = (inr ObjectTwoScalesComposition, w) →
  run self w
  = (inputs ← input self;
     datasets ←
       for_items (PyDict.items inputs)
         (λ '(task_name, task_input) datasets,
            ds ← open_target task_input;
            let ds := set_task_name task_name ds in
            mret (PyDict.set task_name ds datasets))
         PyDict.empty;
     fig ← pure (_scales_dist_2d datasets (plot_parameters self)
                   (global_parameters self));
     savefig (fn (output self)) fig) w.
Proof.
  intros Hc. unfold run. unfold mbind at 1, M_bind at 1. rewrite Hc.
  unfold mbind at 1, M_bind at 1, pure at 1, select_renderer.
  by rewrite decide_True.
Qed.

(** [run] on a supported class whose dependencies all have their array
    on disk. *)
Lemma run_on_opened_inputs self w (tasks : PyDict.t Task)
    (datasets : PyDict.t DataArray) :
  _get_task_class self w = (inr ObjectTwoScalesComposition, w) →
  requires self w = (inr tasks, w) →
  Forall2 (λ task d,
             d.1 = task.1
             ∧ ∃ da, w !! task_output task.2 = Some (DataFile da)
                     ∧ d.2 = set_task_name task.1 da) tasks datasets →
  run self w
  = match _scales_dist_2d datasets (plot_parameters self)
            (global_parameters self) with
    | inl e => (inl e, w)
    | inr fig => savefig (fn (output self)) fig w
    end.
Proof.
  intros Hc Hreq Hall. rewrite (run_supported self w Hc).
  unfold mbind at 1, M_bind at 1.
  rewrite (input_of_requires self w _ Hreq).
  unfold mbind at 1, M_bind at 1. unfold PyDict.items, PyDict.empty.
  rewrite (open_loop_opens _ datasets [] w).
  - unfold mbind at 1, M_bind at 1, pure at 1. cbn [app].
    by destruct (_scales_dist_2d _ _ _).
  - apply Forall2_fmap_l. eapply Forall2_impl; [exact Hall|].
    intros [label t] [label' d] H. exact H.
  - cbn [app]. rewrite <- list_fmap_compose.
    apply (requires_labels_distinct self w tasks w Hreq).
Qed.

(** X13.  [run] on a supported class whose dependencies all have their
    array on disk renders the arrays in the order of the dependency map,
    each under its label and tagged with it, with the task's plot and
    global parameters; a rendering error is raised with nothing written,
    and a figure goes to [savefig] on the task's output. *)
Theorem run_renders_tagged_inputs self w (tasks : PyDict.t Task)
    (datasets : PyDict.t DataArray) :
  _get_task_class self w = (inr ObjectTwoScalesComposition, w) →
  requires self w = (inr tasks, w) →
  Forall2 (λ task d,
             d.1 = task.1
             ∧ ∃ da, w !! task_output task.2 = Some (DataFile da)
                     ∧ d.2 = set_task_name task.1 da) tasks datasets →
  run self w
  = match _scales_dist_2d datasets (plot_parameters self)
            (global_parameters self) with
    | inl e => (inl e, w)
    | inr fig => savefig (fn (output self)) fig w
    end.
Proof. apply run_on_opened_inputs. Qed.

(** X14.  [run] on a supported class raises what [requires] raises, and
    raises [OSError] on the output of the first dependency, in the order
    of the dependency map, that has no array on disk; in both cases
    nothing is written. *)
Theorem run_raises_on_missing_input self w :
  _get_task_class self w = (inr ObjectTwoScalesComposition, w) →
  (∀ e, requires self w = (inl e, w) → run self w = (inl e, w))
  ∧ (∀ before label t after,
       requires self w = (inr (before ++ (label, t) :: after), w) →
       Forall (λ task, ∃ da, w !! task_output task.2 = Some (DataFile da))
              before →
       (∀ da, w !! task_output t ≠ Some (DataFile da)) →
       run self w = (inl (OSError (task_output t)), w)).
Proof.
  intros Hc. split.
  - intros e Hreq. rewrite (run_supported self w Hc).
    unfold mbind at 1, M_bind at 1.
    by rewrite (input_of_requires self w _ Hreq).
  - intros before label t after Hreq Hall Hmissing.
    rewrite (run_supported self w Hc). unfold mbind at 1, M_bind at 1.
    rewrite (input_of_requires self w _ Hreq).
    unfold mbind at 1, M_bind at 1. unfold PyDict.items.
    rewrite map_app. cbn [map fst snd].
    rewrite (open_loop_fails _ _ label (task_output t)); [done| |done].
    apply Forall_fmap. eapply Forall_impl; [exact Hall|]. by intros [? ?].
Qed.

(** X15.  Whatever [run] does, returning or raising, it leaves every
    path other than its own output as it was. *)
Theorem run_touches_only_its_output self w path :
  path ≠ fn (output self) → (run self w).2 !! path = w !! path.
Proof.
  intros Hne.
  destruct (run_cases self w) as [[e ->]|(datasets & fig & _ & ->)]; [done|].
  unfold savefig. destruct (write_outcome _); cbn [snd]; [|done|];
    by rewrite lookup_insert_ne.
Qed.

(** What a [run] that returns has done. *)
Lemma run_success_inv self w u w' :
  run self w = (inr u, w') →
  ∃ tasks datasets fig,
    _get_task_class self w = (inr ObjectTwoScalesComposition, w)
    ∧ requires self w = (inr tasks, w)
    ∧ Forall2 (λ task d,
                 d.1 = task.1
                 ∧ ∃ da, w !! task_output task.2 = Some (DataFile da)
                         ∧ d.2 = set_task_name task.1 da) tasks datasets
    ∧ _scales_dist_2d datasets (plot_parameters self) (global_parameters self)
      = inr fig
    ∧ write_outcome (fn (output self)) = Written
    ∧ w' = <[fn (output self) := ImageFile fig]> w.
Proof.
  intros Hrun.
  destruct (stateless_get_task_class self) as [rc Hc].
  destruct (stateless_requires self) as [rr Hr].
  assert (rc = inr ObjectTwoScalesComposition) as ->.
  { unfold run in Hrun. unfold mbind at 1, M_bind at 1 in Hrun.
    rewrite Hc in Hrun. destruct rc as [e|c]; [done|].
    unfold mbind at 1, M_bind at 1, pure at 1 in Hrun.
    destruct (select_renderer c) as [e|pf] eqn:Hsel; [done|].
    by apply select_renderer_inv in Hsel as [-> _]. }
  rewrite (run_supported self w (Hc w)) in Hrun.
  unfold mbind at 1, M_bind at 1 in Hrun.
  rewrite (input_of_requires self w _ (Hr w)) in Hrun.
  destruct rr as [e|tasks]; [done|].
  unfold mbind at 1, M_bind at 1 in Hrun. unfold PyDict.items, PyDict.empty in Hrun.
  match type of Hrun with
  | context [for_items ?l ?b ?a w] =>
      destruct (for_items l b a w) as [[e|datasets] w1] eqn:Hopen
  end; [done|].
  pose proof (open_inputs_world _ _ _ _ _ Hopen) as ->.
  apply open_loop_inv in Hopen as (ds & -> & Hall).
  2:{ cbn [app]. rewrite <- list_fmap_compose.
      apply (requires_labels_distinct self w tasks w (Hr w)). }
  cbn [app] in Hrun.
  unfold mbind at 1, M_bind at 1, pure at 1 in Hrun.
  destruct (_scales_dist_2d ds _ _) as [e|fig] eqn:Hfig; [done|].
  unfold savefig in Hrun.
  destruct (write_outcome _) eqn:Hwrite; try done.
  injection Hrun as _ <-.
  exists tasks, ds, fig. repeat split; try done.
  apply Forall2_fmap_l in Hall. eapply Forall2_impl; [exact Hall|].
  intros [label t] [label' d] H. exact H.
Qed.

(** X16.  [run] is idempotent: after a [run] that returned, a second
    [run] returns and leaves the file system as the first left it,
    provided no dependency has the task's own output as its output. *)
Theorem run_twice_is_run_once self w u w' :
  run self w = (inr u, w') →
  (∀ tasks task, requires self w = (inr tasks, w) → task ∈ tasks →
     task_output task.2 ≠ fn (output self)) →
  run self w' = (inr u, w').
Proof.
  intros Hrun Hout.
  apply run_success_inv in Hrun
    as (tasks & datasets & fig & Hc & Hreq & Hall & Hfig & Hwrite & ->).
  destruct (stateless_get_task_class self) as [rc Hc'].
  destruct (stateless_requires self) as [rr Hr'].
  assert (rc = inr ObjectTwoScalesComposition) as -> by (rewrite Hc' in Hc; congruence).
  assert (rr = inr tasks) as -> by (rewrite Hr' in Hreq; congruence).
  rewrite (run_on_opened_inputs self _ tasks datasets (Hc' _) (Hr' _)).
  - rewrite Hfig. unfold savefig. rewrite Hwrite, insert_insert_eq.
    by destruct u.
  - apply Forall2_same_length_lookup. split; [by eapply Forall2_length|].
    intros i task d Htask Hd.
    destruct (Forall2_lookup_lr _ _ _ _ _ _ Hall Htask Hd)
      as (Hl & da & Hda & Htag).
    split; [done|]. exists da. split; [|done].
    rewrite lookup_insert_ne; [done|].
    intros Heq. eapply (Hout tasks task Hreq); [|by symmetry].
    by eapply list_elem_of_lookup_2.
Qed.

End TaskExtras.

(** ** Names, targets and parameters *)

Section NamingExtras.
Context `{RT : Runtime}.

Lemma append_inj_l (s1 s2 t : string) : s1 +:+ t = s2 +:+ t → s1 = s2.
Proof.
  intros Heq.
  assert (String.length s1 = String.length s2) as Hlen.
  { apply (f_equal String.length) in Heq. rewrite !length_append in Heq. lia. }
  rewrite <- (take_append s1 t), <- (take_append s2 t), Heq, Hlen. done.
Qed.

(** X17.  The output of a comparison is decided by its name alone: two
    comparisons have the same target exactly when they have the same
    name, whatever their base class and parameters. *)
Theorem output_decided_by_name (self self' : ComparisonPlot) :
  output self = output self' ↔ name self = name self'.
Proof.
  unfold output. split.
  - intros [= Heq]. by apply append_inj_l in Heq.
  - by intros ->.
Qed.

(** X18.  The class name [_get_task_class] looks up never holds a dot,
    and for a [base_class] with a dot the module suffix, a dot and the
    class name give [base_class] back. *)
Theorem split_base_class_rejoins (base_class : string) :
  PyStr.free_of "." (split_base_class base_class).2
  ∧ ("."%char ∈ String.list_ascii_of_string base_class →
     (split_base_class base_class).1 +:+ "."
       +:+ (split_base_class base_class).2 = base_class).
Proof.
  destruct (decide ("."%char ∈ String.list_ascii_of_string base_class))
    as [Hdot|Hno].
  - destruct (split_at_last_dot base_class Hdot) as (m & c & -> & Hc).
    rewrite (split_base_class_dotted m c Hc). by split.
  - rewrite (split_base_class_undotted base_class Hno). by split.
Qed.

Lemma set_same {V} (k : string) (v : V) (d : PyDict.t V) :
  PyDict.get k d = Some v → PyDict.set k v d = d.
Proof.
  induction d as [|[k0 v0] d IH]; [done|]. cbn [PyDict.get PyDict.set].
  destruct (String.eqb_spec k k0) as [->|Hne].
  - by intros [= ->].
  - intros Hget. by rewrite IH.
Qed.

Lemma get_elem_of_wf {V} (k : string) (v : V) (d : PyDict.t V) :
  PyDict.wf d → (k, v) ∈ d → PyDict.get k d = Some v.
Proof.
  unfold PyDict.wf. induction d as [|[k0 v0] d IH]; [by intros _ ?%elem_of_nil|].
  cbn [fmap list_fmap fst PyDict.get].
  intros [Hk0 Hd]%NoDup_cons [[= -> ->]|Hin]%elem_of_cons.
  - by rewrite String.eqb_refl.
  - destruct (String.eqb_spec k k0) as [->|Hne]; [|by apply IH].
    destruct Hk0. apply (list_elem_of_fmap_2 fst) in Hin. exact Hin.
Qed.

Lemma update_same {V} (d e : PyDict.t V) :
  (∀ k v, (k, v) ∈ e → PyDict.get k d = Some v) → PyDict.update d e = d.
Proof.
  unfold PyDict.update. induction e as [|[k v] e IH]; [done|]. intros H.
  cbn [fold_left fst snd]. rewrite set_same.
  - apply IH. intros k' v' Hin. apply H. apply elem_of_cons. by right.
  - apply H. apply elem_of_cons. by left.
Qed.

(** X19.  Resolving parameters is idempotent and has a neutral element:
    updating the resolved parameters with the same variant again changes
    nothing, and an empty variant gives the global parameters back.  A
    variant that is [None] or an integer raises [TypeError]. *)
Theorem merge_parameters_idempotent (global_parameters variant : Dict)
    (resolved : Dict) :
  PyDict.wf variant →
  merge_parameters global_parameters (VDict variant) = inr resolved →
  merge_parameters resolved (VDict variant) = inr resolved
  ∧ merge_parameters global_parameters (VDict []) = inr global_parameters
  ∧ merge_parameters global_parameters VNone = inl TypeError
  ∧ ∀ z, merge_parameters global_parameters (VInt z) = inl TypeError.
Proof.
  intros Hwf Hres. split; [|by repeat split].
  unfold merge_parameters in *.
  rewrite (py_pairs_dict (C := TaskClass)) in *.
  unfold mbind, res_bind in *. rewrite str_keyed_dict in *.
  injection Hres as <-. unfold mret, res_ret, PyDict.copy. f_equal.
  apply update_same. intros k v Hin.
  rewrite get_update by done. by rewrite (get_elem_of_wf k v variant).
Qed.

End NamingExtras.

(** ** Clouds present at a time *)

Section OperationsExtras.
Context {T O I : Type} (le : T → T → bool).
Implicit Types (ds : Operations.CloudData T O I).

Lemma present_lookup ds (t0 : T) (i : nat) :
  Operations.present le ds t0 !! i
  = match Operations.smcloudtmin ds !! i, Operations.smcloudtmax ds !! i with
    | Some a, Some b => Some (le a t0 && le t0 b)
    | _, _ => None
    end.
Proof.
  unfold Operations.present. rewrite lookup_zip_with, !list_lookup_fmap.
  destruct (Operations.smcloudtmin ds !! i), (Operations.smcloudtmax ds !! i);
    done.
Qed.

(** X20.  The mask [present] returns has one entry per cloud, true for
    the clouds that have appeared by [t0] and not yet disappeared, both
    ends included: a cloud whose times compare with themselves and with
    each other is present at its time of appearance and at its time of
    disappearance. *)
Theorem present_mask_per_cloud ds (t0 : T) :
  length (Operations.smcloudtmin ds) = length (Operations.smcloudtmax ds) →
  length (Operations.present le ds t0) = length (Operations.smcloudtmin ds)
  ∧ (∀ i a b,
       Operations.smcloudtmin ds !! i = Some a →
       Operations.smcloudtmax ds !! i = Some b →
       Operations.present le ds t0 !! i = Some (le a t0 && le t0 b)
       ∧ (le a a = true → le a b = true → le b b = true →
          Operations.present le ds a !! i = Some true
          ∧ Operations.present le ds b !! i = Some true)).
Proof.
  intros Hlen. split.
  - unfold Operations.present. rewrite length_zip_with, !length_fmap. lia.
  - intros i a b Ha Hb. rewrite !present_lookup, Ha, Hb. split; [done|].
    by intros -> -> ->.
Qed.

(** X21.  With a transitive comparison a cloud is present over an
    interval: present at two times, it is present at every time between
    them. *)
Theorem present_between ds (t1 t t2 : T) (i : nat) :
  (∀ a b c, le a b = true → le b c = true → le a c = true) →
  Operations.present le ds t1 !! i = Some true →
  Operations.present le ds t2 !! i = Some true →
  le t1 t = true → le t t2 = true →
  Operations.present le ds t !! i = Some true.
Proof.
  intros Htrans. rewrite !present_lookup.
  destruct (Operations.smcloudtmin ds !! i) as [a|]; [|done].
  destruct (Operations.smcloudtmax ds !! i) as [b|]; [|done].
  intros [= [H1 _]%andb_true_iff] [= [_ H2]%andb_true_iff] Ht1 Ht2.
  f_equal. apply andb_true_iff. split; eauto.
Qed.

End OperationsExtras.

(** ** Evaluation of the further properties *)

Module CasesFacts.
Import Scenario Cases.
#[local] Existing Instance demo.

Lemma figure_ends_with_legend_witness :
  ∃ fig,
    _scales_dist_2d two_datasets pp_marginal [] = inr fig
    ∧ (∃ body, fig = body ++ [Legend (VStr "upper left"); TightLayout])
    ∧ ∀ loc, Legend loc ∈ fig → loc = VStr "upper left".
Proof.
  assert (∃ fig, _scales_dist_2d (RT := demo) two_datasets pp_marginal [] = inr fig)
    as [fig Hfig] by (eexists; reflexivity).
  exists fig. split; [exact Hfig|].
  destruct (figure_ends_with_legend (RT := demo) two_datasets pp_marginal []
              fig Hfig) as (Hend & Hloc & _).
  split; [exact Hend | exact Hloc].
Defined.

Lemma unit_line_drawn_or_warned_witness :
  ∃ fig,
    _scales_dist_2d two_datasets pp_marginal [] = inr fig
    ∧ Axline ∈ fig ∧ ∀ msg, Warn msg ∉ fig.
Proof.
  assert (∃ fig, _scales_dist_2d (RT := demo) two_datasets pp_marginal [] = inr fig)
    as [fig Hfig] by (eexists; reflexivity).
  exists fig. split; [exact Hfig|].
  destruct (unit_line_drawn_or_warned (RT := demo) two_datasets pp_marginal []
              fig Hfig) as [Hline Hwarn].
  split.
  - apply Hline. split; reflexivity.
  - intros msg (_ & Hax & _)%Hwarn. discriminate Hax.
Defined.

Lemma title_placement_witness :
  ∃ fig,
    _scales_dist_2d two_datasets pp_marginal [("bins", VInt 10)] = inr fig
    ∧ Suptitle (VStr "bins: 10") ∈ fig
    ∧ SetTitle AxJoint (VStr "") ∈ fig.
Proof.
  assert (∃ fig, _scales_dist_2d (RT := demo) two_datasets pp_marginal [("bins", VInt 10)] = inr fig)
    as [fig Hfig] by (eexists; reflexivity).
  exists fig. split; [exact Hfig|].
  destruct (title_placement (RT := demo) two_datasets pp_marginal
              [("bins", VInt 10)] fig Hfig) as [Hsup Hset].
  split.
  - apply Hsup. split; reflexivity.
  - apply Hset. right. split; reflexivity.
Defined.

Lemma marginals_follow_the_flag_witness :
  ∃ fig,
    _scales_dist_2d two_datasets pp_marginal [] = inr fig
    ∧ PlotMarginal AxMargX (array "1") ∈ fig
    ∧ PlotMarginal AxMargY (array "2") ∈ fig.
Proof.
  assert (∃ fig, _scales_dist_2d (RT := demo) two_datasets pp_marginal [] = inr fig)
    as [fig Hfig] by (eexists; reflexivity).
  exists fig. split; [exact Hfig|].
  pose proof (marginals_follow_the_flag (RT := demo) two_datasets pp_marginal
                [] fig Hfig) as Hm.
  split; apply Hm.
  - split; [reflexivity|]. split; [discriminate|]. exists "a".
    apply elem_of_cons. by left.
  - split; [reflexivity|]. split; [discriminate|]. exists "b".
    apply elem_of_cons. right. apply elem_of_cons. by left.
Defined.

Lemma reference_drawn_with_kwargs_witness :
  ∃ fig,
    _scales_dist_2d two_datasets pp_reference [] = inr fig
    ∧ FpReference [("linestyle", VStr ":")] ∈ fig.
Proof.
  assert (∃ fig, _scales_dist_2d (RT := demo) two_datasets pp_reference [] = inr fig)
    as [fig Hfig] by (eexists; reflexivity).
  exists fig. split; [exact Hfig|].
  apply (reference_drawn_with_kwargs (RT := demo) two_datasets pp_reference []
           fig Hfig).
  repeat split; reflexivity.
Defined.

Lemma too_few_contour_levels_raise_witness :
  ("b", array "flat") ∈ take 4 (PyDict.items with_flat)
  ∧ (n_collections (Runtime := demo_old) (array "flat") ≤ 2)%nat
  ∧ ∃ e, _scales_dist_2d (RT := demo_old) with_flat [] [] = inl e.
Proof.
  assert (("b", array "flat") ∈ take 4 (PyDict.items with_flat)) as Hin.
  { apply elem_of_cons. right. apply elem_of_cons. by left. }
  assert (n_collections (Runtime := demo_old) (array "flat") ≤ 2)%nat as Hn.
  { cbn. lia. }
  split; [exact Hin|]. split; [exact Hn|].
  exact (too_few_contour_levels_raise (RT := demo_old) with_flat [] [] "b"
           (array "flat") Hin Hn).
Defined.

Lemma plot_parameters_keys_read_witness :
  _scales_dist_2d two_datasets pp_reference' []
  = _scales_dist_2d two_datasets pp_reference [].
Proof.
  apply (plot_parameters_keys_read (RT := demo)).
  intros k Hk.
  repeat (apply elem_of_cons in Hk as [->|Hk]; [reflexivity|]).
  by apply elem_of_nil in Hk.
Defined.

Lemma subplots_takes_fig_params_witness :
  truthy (PyDict.get_or "add_marginal_distributions" pp_reference (VBool false))
  = false
  ∧ ∃ fig rest,
      _scales_dist_2d two_datasets pp_reference [] = inr fig
      ∧ fig = Subplots [("figsize", VList [VInt 4; VInt 5])] :: rest.
Proof.
  split; [reflexivity|].
  assert (∃ fig, _scales_dist_2d (RT := demo) two_datasets pp_reference [] = inr fig)
    as [fig Hfig] by (eexists; reflexivity).
  destruct (subplots_takes_fig_params (RT := demo) two_datasets pp_reference []
              eq_refl) as [Hopen _].
  destruct (Hopen fig Hfig) as (kw & rest & Hkw & ->).
  injection Hkw as <-.
  exists (Subplots [("figsize", VList [VInt 4; VInt 5])] :: rest), rest.
  split; [exact Hfig | reflexivity].
Defined.

Lemma plot_grid_takes_height_only_witness :
  truthy (PyDict.get_or "add_marginal_distributions" pp_marginal (VBool false))
  = true
  ∧ PyDict.get_or "fig_params" pp_marginal (VDict [])
    = VDict [("figsize", VList [VInt 4; VInt 5])]
  ∧ ∃ fig rest,
      _scales_dist_2d two_datasets pp_marginal [] = inr fig
      ∧ fig = NewPlotGrid (Some (VInt 5)) :: rest.
Proof.
  split; [reflexivity|]. split; [reflexivity|].
  assert (∃ fig, _scales_dist_2d (RT := demo) two_datasets pp_marginal [] = inr fig)
    as [fig Hfig] by (eexists; reflexivity).
  destruct (plot_grid_takes_height_only (RT := demo) two_datasets pp_marginal []
              [("figsize", VList [VInt 4; VInt 5])] eq_refl eq_refl)
    as [Hopen _].
  destruct (Hopen fig Hfig) as (h & rest & -> & _ & Hh).
  rewrite (Hh [VInt 4; VInt 5] eq_refl) in Hfig.
  exists (NewPlotGrid (Some (VInt 5)) :: rest), rest.
  split; [exact Hfig | reflexivity].
Defined.

Lemma reference_kwargs_swallows_errors_witness :
  reference_kwargs
    (VList [VStr "unit_line"; VStr "filamentarity_planarity_reference"])
  = inr []
  ∧ reference_kwargs
      (VDict [("filamentarity_planarity_reference",
               VDict [("linestyle", VStr ":")])])
    = inr [("linestyle", VStr ":")].
Proof.
  destruct (reference_kwargs_swallows_errors (RT := demo))
    as (Hlist & _ & _ & _ & Hdict).
  split; [apply Hlist|].
  apply Hdict; [reflexivity|]. unfold PyDict.wf. cbn. apply NoDup_singleton.
Defined.

Lemma requires_builds_one_task_per_set_witness :
  requires cmp_two small_ready
  = (inr [("v", small_task);
          ("w", {| demo_class := TwoScales;
                   demo_params := [("a", VInt 2)] |})], small_ready).
Proof.
  apply (requires_builds_one_task_per_set (RT := demo) cmp_two small_ready
           TwoScales).
  - reflexivity.
  - unfold PyDict.wf. apply (bool_decide_unpack _). vm_compute. exact I.
  - repeat first [apply Forall2_nil_2
                 | apply Forall2_cons_2;
                   [split; [reflexivity|]; eexists; split; reflexivity|]].
Defined.

Lemma requires_raises_first_failure_witness :
  requires cmp_bad_set small_ready = (inl TypeError, small_ready).
Proof.
  apply (requires_raises_first_failure (RT := demo) cmp_bad_set small_ready
           TwoScales [("v", VDict [("a", VInt 1)])] [("x", VDict [])] "w" VNone).
  - reflexivity.
  - reflexivity.
  - apply Forall_cons_2; [|apply Forall_nil_2].
    eexists _, _. split; reflexivity.
  - left. reflexivity.
Defined.

Lemma run_renders_tagged_inputs_witness :
  run cmp_small small_ready
  = match _scales_dist_2d
            [("v", {| content := "x"; task_name := Some "v" |})] [] [] with
    | inl e => (inl e, small_ready)
    | inr fig => savefig "c.png" fig small_ready
    end.
Proof.
  apply (run_renders_tagged_inputs (RT := demo) cmp_small small_ready
           [("v", small_task)]).
  - reflexivity.
  - reflexivity.
  - apply Forall2_cons_2; [|apply Forall2_nil_2].
    split; [reflexivity|]. exists (array "x"). split; reflexivity.
Defined.

Lemma run_raises_on_missing_input_witness :
  run cmp_two small_ready = (inl (OSError "a=2.nc"), small_ready).
Proof.
  destruct (run_raises_on_missing_input (RT := demo) cmp_two small_ready
              eq_refl) as [_ Hmissing].
  apply (Hmissing [("v", small_task)] "w"
           {| demo_class := TwoScales; demo_params := [("a", VInt 2)] |} []).
  - reflexivity.
  - apply Forall_cons_2; [|apply Forall_nil_2].
    exists (array "x"). reflexivity.
  - assert (small_ready !! "a=2.nc" = None) as Hnone by reflexivity.
    intros da Hda. change (small_ready !! "a=2.nc" = Some (DataFile da)) in Hda.
    congruence.
Defined.

Lemma run_touches_only_its_output_witness :
  "a=1.nc" ≠ fn (output cmp_small)
  ∧ (run cmp_small small_ready).2 !! "a=1.nc" = small_ready !! "a=1.nc".
Proof.
  assert ("a=1.nc" ≠ fn (output cmp_small)) as Hne by discriminate.
  split; [exact Hne|].
  exact (run_touches_only_its_output (RT := demo) cmp_small small_ready
           "a=1.nc" Hne).
Defined.

Lemma run_twice_is_run_once_witness :
  run cmp_small small_ready = (inr tt, (run cmp_small small_ready).2)
  ∧ run cmp_small (run cmp_small small_ready).2
    = (inr tt, (run cmp_small small_ready).2).
Proof.
  assert (run cmp_small small_ready = (inr tt, (run cmp_small small_ready).2))
    as Hrun by reflexivity.
  split; [exact Hrun|].
  apply (run_twice_is_run_once (RT := demo) cmp_small small_ready tt _ Hrun).
  intros tasks task Hreq Hin.
  assert (requires cmp_small small_ready = (inr [("v", small_task)], small_ready))
    as Hreq' by reflexivity.
  rewrite Hreq' in Hreq. injection Hreq as <-.
  apply list_elem_of_singleton in Hin as ->. discriminate.
Defined.

Lemma output_decided_by_name_witness :
  name cmp1 = name cmp_changed ∧ output cmp1 = output cmp_changed.
Proof.
  split; [reflexivity|].
  apply (output_decided_by_name cmp1 cmp_changed). reflexivity.
Defined.

Lemma split_base_class_rejoins_witness :
  "."%char ∈ String.list_ascii_of_string "a.b.C"
  ∧ PyStr.free_of "." "C"
  ∧ "a.b" +:+ "." +:+ "C" = "a.b.C".
Proof.
  assert ("."%char ∈ String.list_ascii_of_string "a.b.C") as Hdot.
  { apply (bool_decide_unpack _). vm_compute. exact I. }
  split; [exact Hdot|].
  destruct (split_base_class_rejoins "a.b.C") as [Hfree Hjoin].
  split; [exact Hfree | exact (Hjoin Hdot)].
Defined.

Lemma merge_parameters_idempotent_witness :
  PyDict.wf [("b", VInt 3)]
  ∧ merge_parameters [("a", VInt 1); ("b", VInt 2)] (VDict [("b", VInt 3)])
    = inr [("a", VInt 1); ("b", VInt 3)]
  ∧ merge_parameters [("a", VInt 1); ("b", VInt 3)] (VDict [("b", VInt 3)])
    = inr [("a", VInt 1); ("b", VInt 3)].
Proof.
  assert (PyDict.wf [("b", VInt 3)]) as Hwf.
  { unfold PyDict.wf. cbn. apply NoDup_singleton. }
  split; [exact Hwf|]. split; [reflexivity|].
  apply (merge_parameters_idempotent (RT := demo)
           [("a", VInt 1); ("b", VInt 2)] [("b", VInt 3)] _ Hwf eq_refl).
Defined.

Lemma present_mask_per_cloud_witness :
  length (Operations.smcloudtmin clouds) = length (Operations.smcloudtmax clouds)
  ∧ length (Operations.present Z.leb clouds 6) = 3%nat
  ∧ Operations.present Z.leb clouds 6 !! 1%nat = Some true
  ∧ Operations.present Z.leb clouds 5 !! 1%nat = Some true
  ∧ Operations.present Z.leb clouds 9 !! 1%nat = Some true.
Proof.
  split; [reflexivity|].
  destruct (present_mask_per_cloud Z.leb clouds 6 eq_refl) as [Hlen Hentry].
  split; [exact Hlen|].
  destruct (Hentry 1%nat 5 9 eq_refl eq_refl) as [Hat Hends].
  split; [exact Hat|]. apply Hends; reflexivity.
Defined.

Lemma present_between_witness :
  Operations.present Z.leb clouds 5 !! 1%nat = Some true
  ∧ Operations.present Z.leb clouds 9 !! 1%nat = Some true
  ∧ Operations.present Z.leb clouds 7 !! 1%nat = Some true.
Proof.
  split; [reflexivity|]. split; [reflexivity|].
  apply (present_between Z.leb clouds 5 7 9 1).
  - intros a b c Hab Hbc. apply Z.leb_le. apply Z.leb_le in Hab, Hbc. lia.
  - reflexivity.
  - reflexivity.
  - reflexivity.
  - reflexivity.
Defined.

End CasesFacts.
